(** * NASALPROM PROM Copier: scoring, validation and serialisation core

    A shallow embedding of the pure core of the NASALPROM copier
    (the richest variant of the script): completion classification, the
    "no partly completed questionnaire" gate, the smart TSV selection, the
    TSV rows, the EPR narrative and the patient message.

    Conventions of the embedding.
    - A score is a JavaScript number holding an integer; it is a [Z] here
      (exact for every integer the radio buttons can produce, and for every
      integer in the double-precision safe range).  An unanswered slot is
      JavaScript's [null], here [None].
    - A string is a [string] of bytes (UTF-8).  The only separators the code
      splits or joins on are ASCII ("-", tab, newline), or are only joined
      (" | ", " – "), so byte strings behave as the script's strings do.
    - [throw new Error(msg)] is the [Throw msg] outcome of [result].
    - The values the script reads from the page (date, timepoint, the radio
      buttons, the mount configuration) are explicit arguments. *)

From Stdlib Require Import ZArith List String Ascii Bool Lia.
From Stdlib Require Import DecimalString DecimalZ.
Import ListNotations.

Local Open Scope string_scope.
Local Open Scope Z_scope.

(** ** The JavaScript primitives the script relies on *)

Module JS.

Definition TAB : ascii := "009"%char.
Definition NL : ascii := "010"%char.
Definition HYPHEN : ascii := "-"%char.

Definition str (c : ascii) : string := String c EmptyString.

(** [s.split(sep)] for a one-character separator: the pieces between the
    occurrences of [sep]; never an empty array (["".split("-")] is [[""]]). *)
Fixpoint split (sep : ascii) (s : string) : list string :=
  match s with
  | EmptyString => [EmptyString]
  | String c rest =>
      if Ascii.eqb c sep then EmptyString :: split sep rest
      else match split sep rest with
           | [] => [str c]
           | piece :: pieces => String c piece :: pieces
           end
  end.

(** [arr.join(sep)] on an array of strings. *)
Definition join (sep : string) (arr : list string) : string :=
  String.concat sep arr.

(** [String(n)], and [${n}] in a template, for an integer [n]. *)
Definition String_ (n : Z) : string :=
  NilEmpty.string_of_int (Z.to_int n).

(** Reading a decimal integer back (what a spreadsheet cell does with a
    pasted field); only used to state round trips. *)
Definition parseInt (s : string) : option Z :=
  option_map Z.of_int (NilEmpty.int_of_string s).

(** Truthiness of a string: only [""] is falsy. *)
Definition truthy (s : string) : bool :=
  match s with EmptyString => false | String _ _ => true end.

(** Truthiness of a destructured array element: [undefined] (a missing
    index) and [""] are falsy. *)
Definition truthy_elt (s : option string) : bool :=
  match s with Some s => truthy s | None => false end.

(** [${x}] for a possibly missing string or number. *)
Definition tmpl_str (s : option string) : string :=
  match s with Some s => s | None => "undefined" end.

Definition tmpl_num (n : option Z) : string :=
  match n with Some n => String_ n | None => "undefined" end.

(** [Number(v)] for a score slot: [Number(null)] is [0]. *)
Definition Number (v : option Z) : Z :=
  match v with Some n => n | None => 0 end.

(** Does the string contain the character? *)
Fixpoint has_char (c : ascii) (s : string) : bool :=
  match s with
  | EmptyString => false
  | String a rest => Ascii.eqb a c || has_char c rest
  end.

(** Do all characters of the string satisfy the test? *)
Fixpoint all_chars (p : ascii -> bool) (s : string) : bool :=
  match s with
  | EmptyString => true
  | String a rest => p a && all_chars p rest
  end.

(** The characters of a rendered integer: digits and the sign. *)
Definition is_num_char (c : ascii) : bool :=
  let n := nat_of_ascii c in
  (Nat.leb 48 n && Nat.leb n 57) || Nat.eqb n 45.

(** The last character of a string, if any. *)
Fixpoint last_char (s : string) : option ascii :=
  match s with
  | EmptyString => None
  | String a EmptyString => Some a
  | String _ rest => last_char rest
  end.

End JS.

(** ** Outcomes: a returned value or a thrown [Error] *)

Inductive result (A : Type) : Type :=
| Return (a : A)
| Throw (message : string).

Arguments Return {A} a.
Arguments Throw {A} message.

Definition bind {A B : Type} (r : result A) (k : A -> result B) : result B :=
  match r with
  | Return a => k a
  | Throw msg => Throw msg
  end.

Notation "'let*' x ':=' r 'in' k" := (bind r (fun x => k))
  (at level 10, x name, r at level 100, k at level 200).

(** ** Questionnaire definitions *)

Definition NOSE_ITEMS : list string :=
  [ "Nasal congestion";
    "Nasal obstruction";
    "Trouble breathing through nose";
    "Trouble sleeping";
    "Unable to get enough air through nose during exercise" ].

Definition SNOT_ITEMS : list string :=
  [ "Need to blow nose";
    "Sneezing";
    "Runny nose";
    "Nasal obstruction";
    "Loss of smell or taste";
    "Cough";
    "Post-nasal discharge";
    "Thick nasal discharge";
    "Ear fullness";
    "Dizziness";
    "Ear pain";
    "Facial pain/pressure";
    "Difficulty falling asleep";
    "Waking up at night";
    "Lack of a good night’s sleep";
    "Waking up tired";
    "Fatigue";
    "Reduced productivity";
    "Reduced concentration";
    "Frustrated/restless/irritable";
    "Sad";
    "Embarrassed" ].

(** ** Scores *)

(** An answer list as [getScores] builds it: a number or [null] per item. *)
Definition Scores : Type := list (option Z).

(** [arr.reduce((a, b) => a + b, 0)] *)
Definition sum (arr : list Z) : Z :=
  fold_left (fun a b => a + b) arr 0.

(** ** Dates *)

Definition ddmmyyyy (iso : string) : string :=
  if negb (JS.truthy iso) then ""
  else
    let parts := JS.split JS.HYPHEN iso in
    let y := nth_error parts 0 in
    let m := nth_error parts 1 in
    let d := nth_error parts 2 in
    if negb (JS.truthy_elt y) || negb (JS.truthy_elt m) || negb (JS.truthy_elt d)
    then iso
    else JS.tmpl_str d ++ "/" ++ JS.tmpl_str m ++ "/" ++ JS.tmpl_str y.

(** ** Completion *)

Inductive CompletionState : Type := empty | partial | complete.

Definition CompletionState_eqb (a b : CompletionState) : bool :=
  match a, b with
  | empty, empty | partial, partial | complete, complete => true
  | _, _ => false
  end.

Definition is_answered (v : option Z) : bool :=
  match v with Some _ => true | None => false end.

Definition completionState (scores : Scores) : CompletionState :=
  let answered := List.length (filter is_answered scores) in
  if Nat.eqb answered 0 then empty
  else if Nat.eqb answered (List.length scores) then complete
  else partial.

Definition partly_completed_message (label : string) : string :=
  label ++ " is partly completed. Please answer all questions in "
        ++ label ++ ", or clear it and leave it blank.".

Definition assertNotPartialOrThrow (label : string) (scores : Scores)
  : result CompletionState :=
  let st := completionState scores in
  if CompletionState_eqb st partial
  then Throw (partly_completed_message label)
  else Return st.

Definition scoresToNumbers (scores : Scores) : list Z :=
  map JS.Number scores.

(** ** TSV builders *)

Definition buildFullBlockTSV (noseNums snotNums : list Z) : string :=
  let cols :=
    (map JS.String_ noseNums
       ++ [JS.String_ (sum noseNums)]
       ++ map JS.String_ snotNums
       ++ [JS.String_ (sum snotNums)])%list in
  JS.join (JS.str JS.TAB) cols.

Definition buildNoseOnlyTSV (noseNums : list Z) : string :=
  let cols := (map JS.String_ noseNums ++ [JS.String_ (sum noseNums)])%list in
  JS.join (JS.str JS.TAB) cols.

Definition buildSnotOnlyTSV (snotNums : list Z) : string :=
  let cols := (map JS.String_ snotNums ++ [JS.String_ (sum snotNums)])%list in
  JS.join (JS.str JS.TAB) cols.

(** ** The EPR narrative *)

(** [items.forEach((t, i) => lines.push(`- ${t}: ${nums[i]}`))], the index
    starting at [i]. *)
Fixpoint itemLines (items : list string) (i : nat) (nums : list Z)
  : list string :=
  match items with
  | [] => []
  | t :: rest =>
      ("- " ++ t ++ ": " ++ JS.tmpl_num (nth_error nums i))
        :: itemLines rest (S i) nums
  end.

(** The metadata pieces, in the order they are pushed. *)
Definition eprMeta (dateIso timepoint blockLabel : string) : list string :=
  ((if JS.truthy dateIso then [("Date: " ++ ddmmyyyy dateIso)%string] else [])
     ++ (if JS.truthy timepoint then [("Timepoint: " ++ timepoint)%string] else [])
     ++ (if JS.truthy blockLabel then [("Dataset: " ++ blockLabel)%string] else []))%list.

Definition eprHeader (dateIso timepoint blockLabel : string) : list string :=
  let meta := eprMeta dateIso timepoint blockLabel in
  (["PROMs recorded:"]
     ++ (match meta with [] => [] | _ :: _ => [JS.join " | " meta] end)
     ++ [""])%list.

Definition noseBlock (noseNumsOrNull : option (list Z)) : list string :=
  match noseNumsOrNull with
  | Some noseNums =>
      let noseRaw := sum noseNums in
      let noseScaled := noseRaw * 5 in
      ([("NOSE raw total: " ++ JS.String_ noseRaw ++ " / 20")%string;
        ("NOSE score (0–100): " ++ JS.String_ noseScaled ++ " / 100")%string]
         ++ itemLines NOSE_ITEMS 0 noseNums
         ++ [""])%list
  | None => []
  end.

Definition snotBlock (snotNumsOrNull : option (list Z)) : list string :=
  match snotNumsOrNull with
  | Some snotNums =>
      let snotTotal := sum snotNums in
      ([("SNOT-22 total: " ++ JS.String_ snotTotal ++ " / 110")%string]
         ++ itemLines SNOT_ITEMS 0 snotNums
         ++ [""])%list
  | None => []
  end.

(** [while (lines.length && lines[lines.length - 1] === "") lines.pop()],
    read on the array seen from its end. *)
Fixpoint dropBlanks (reversed : list string) : list string :=
  match reversed with
  | EmptyString :: rest => dropBlanks rest
  | _ => reversed
  end.

Definition popTrailingBlanks (lines : list string) : list string :=
  rev (dropBlanks (rev lines)).

(** The [lines] array when the function joins it. *)
Definition eprLines (dateIso timepoint blockLabel : string)
  (noseNumsOrNull snotNumsOrNull : option (list Z)) : list string :=
  popTrailingBlanks
    (eprHeader dateIso timepoint blockLabel
       ++ noseBlock noseNumsOrNull
       ++ snotBlock snotNumsOrNull)%list.

Definition buildEprText (dateIso timepoint blockLabel : string)
  (noseNumsOrNull snotNumsOrNull : option (list Z)) : string :=
  JS.join (JS.str JS.NL)
    (eprLines dateIso timepoint blockLabel noseNumsOrNull snotNumsOrNull).

(** ** Smart TSV selection *)

Inductive Mode : Type := full | nose | snot.

Record SmartTSV : Type := mkSmartTSV {
  mode : Mode;
  tsv : string;
  noseNums : option (list Z);
  snotNums : option (list Z)
}.

Definition buildSmartTSV (noseScores snotScores : Scores) : result SmartTSV :=
  let* noseState := assertNotPartialOrThrow "NOSE" noseScores in
  let* snotState := assertNotPartialOrThrow "SNOT-22" snotScores in
  if CompletionState_eqb noseState empty && CompletionState_eqb snotState empty
  then Throw "Please complete NOSE and/or SNOT-22 before copying."
  else if CompletionState_eqb noseState complete
          && CompletionState_eqb snotState complete
  then
    let noseNums := scoresToNumbers noseScores in
    let snotNums := scoresToNumbers snotScores in
    Return (mkSmartTSV full (buildFullBlockTSV noseNums snotNums)
              (Some noseNums) (Some snotNums))
  else if CompletionState_eqb noseState complete
  then
    let noseNums := scoresToNumbers noseScores in
    Return (mkSmartTSV nose (buildNoseOnlyTSV noseNums) (Some noseNums) None)
  else
    let snotNums := scoresToNumbers snotScores in
    Return (mkSmartTSV snot (buildSnotOnlyTSV snotNums) None (Some snotNums)).

(** ** The patient message *)

(** The mount configuration: [includeTsvLine] may be absent. *)
Record Config : Type := mkConfig {
  cfg_includeTsvLine : option bool
}.

(** [config.includeTsvLine !== false] *)
Definition includeTsvLine (config : Config) : bool :=
  match cfg_includeTsvLine config with
  | Some false => false
  | _ => true
  end.

Record Message : Type := mkMessage {
  subject : string;
  body : string
}.

(** The labelled TSV pieces pushed to [tsvBits]. *)
Definition tsvBits (noseNums snotNums : option (list Z)) : list string :=
  match noseNums, snotNums with
  | Some n, Some s => ["FULL TSV:" ++ JS.str JS.NL ++ buildFullBlockTSV n s]
  | Some n, None => ["NOSE TSV only:" ++ JS.str JS.NL ++ buildNoseOnlyTSV n]
  | None, Some s => ["SNOT-22 TSV only:" ++ JS.str JS.NL ++ buildSnotOnlyTSV s]
  | None, None => []
  end.

Definition buildPatientMessageOrThrow (config : Config)
  (dateIso timepoint : string) (noseScores snotScores : Scores)
  : result Message :=
  let* noseState := assertNotPartialOrThrow "NOSE" noseScores in
  let* snotState := assertNotPartialOrThrow "SNOT-22" snotScores in
  if CompletionState_eqb noseState empty && CompletionState_eqb snotState empty
  then Throw "Please complete NOSE and/or SNOT-22 before emailing results."
  else
    let noseNums :=
      if CompletionState_eqb noseState complete
      then Some (scoresToNumbers noseScores) else None in
    let snotNums :=
      if CompletionState_eqb snotState complete
      then Some (scoresToNumbers snotScores) else None in
    let readable := buildEprText dateIso timepoint "" noseNums snotNums in
    let subjectParts :=
      (["NASALPROM PROMs"]
         ++ (if JS.truthy dateIso then [ddmmyyyy dateIso] else [])
         ++ (if JS.truthy timepoint then [timepoint] else []))%list in
    let subject := JS.join " – " subjectParts in
    if negb (includeTsvLine config)
    then Return (mkMessage subject (readable ++ JS.str JS.NL))
    else
      let body :=
        readable ++ JS.str JS.NL ++ JS.str JS.NL
          ++ JS.join (JS.str JS.NL ++ JS.str JS.NL) (tsvBits noseNums snotNums)
          ++ JS.str JS.NL in
      Return (mkMessage subject body).

(** ** What the specification's sentences say, as predicates *)

(** [sub] occurs somewhere inside [s]. *)
Definition contains (sub s : string) : Prop :=
  exists pre post, s = pre ++ sub ++ post.

(** [p] is a prefix of [s]. *)
Definition starts_with (p s : string) : bool := String.prefix p s.

(** The completion rule read literally: complete iff every slot is
    answered, empty iff none is, partial in every other case. *)
Definition classify_as_stated (scores : Scores) : Prop :=
  (completionState scores = complete
     <-> Forall (fun v => is_answered v = true) scores)
  /\ (completionState scores = empty
     <-> Forall (fun v => is_answered v = false) scores)
  /\ (completionState scores = partial
     <-> ~ Forall (fun v => is_answered v = true) scores
         /\ ~ Forall (fun v => is_answered v = false) scores).

(** The first three pieces of a date, when all three exist and none is
    empty. *)
Definition date_components (iso : string) : option (string * string * string) :=
  match JS.split JS.HYPHEN iso with
  | y :: m :: d :: _ =>
      if JS.truthy y && JS.truthy m && JS.truthy d then Some (y, m, d) else None
  | _ => None
  end.

(** A date made of a year, a month and a day, and possibly more pieces. *)
Definition iso_date (y m d : string) (more : option string) : string :=
  match more with
  | None => y ++ "-" ++ m ++ "-" ++ d
  | Some rest => y ++ "-" ++ m ++ "-" ++ d ++ "-" ++ rest
  end.

(** A piece of a date: not empty, and without a hyphen. *)
Definition date_piece (s : string) : Prop :=
  s <> EmptyString /\ JS.has_char JS.HYPHEN s = false.

(** The label of the tabular block of a patient message, per mode. *)
Definition tsv_label (m : Mode) : string :=
  match m with
  | full => "FULL TSV:"
  | nose => "NOSE TSV only:"
  | snot => "SNOT-22 TSV only:"
  end.

(** One item line of the narrative. *)
Definition item_line (label : string) (value : Z) : string :=
  "- " ++ label ++ ": " ++ JS.String_ value.

(** The item lines the specification describes: one line per label, with
    the value at the same position. *)
Definition item_lines_of (labels : list string) (values : list Z)
  : list string :=
  map (fun p => item_line (fst p) (snd p)) (combine labels values).

(** The lines of an instrument's block without the blank line closing it. *)
Definition noseBody (noseNums : list Z) : list string :=
  (["NOSE raw total: " ++ JS.String_ (sum noseNums) ++ " / 20";
    "NOSE score (0–100): " ++ JS.String_ (sum noseNums * 5) ++ " / 100"]%string
     ++ itemLines NOSE_ITEMS 0 noseNums)%list.

Definition snotBody (snotNums : list Z) : list string :=
  (["SNOT-22 total: " ++ JS.String_ (sum snotNums) ++ " / 110"]%string
     ++ itemLines SNOT_ITEMS 0 snotNums)%list.

(** The metadata line, when there is one. *)
Definition eprMetaLine (dateIso timepoint blockLabel : string) : list string :=
  match eprMeta dateIso timepoint blockLabel with
  | [] => []
  | _ :: _ => [JS.join " | " (eprMeta dateIso timepoint blockLabel)]
  end.

(** No newline inside a string. *)
Definition single_line (s : string) : bool := negb (JS.has_char JS.NL s).

(** The number of item lines ("- ...") among some lines. *)
Definition count_item_lines (lines : list string) : nat :=
  List.length (filter (starts_with "- ") lines).

(** A line of the header: the title or the metadata line, which opens with
    the name of its first field. *)
Definition header_line (l : string) : bool :=
  String.eqb l "PROMs recorded:"
  || starts_with "Date: " l
  || starts_with "Timepoint: " l
  || starts_with "Dataset: " l.

(** Are scores present ([null] is the only falsy value passed)? *)
Definition is_some {A : Type} (o : option A) : bool :=
  match o with Some _ => true | None => false end.

(** ** The page: radio buttons, elements and effects *)

(** A radio button as [makeRadioRow] makes it: the name of its group, its
    [value] attribute, the text of its label and whether it is checked. *)
Record Radio : Type := mkRadio {
  radio_name : string;
  radio_value : string;
  radio_label : string;
  radio_checked : bool
}.

(** [Number(sel.value)] for the value of a radio button.  The values the
    script writes are the decimal strings [String(i)], on which this is
    exact; a string that is no decimal numeral (JavaScript's [NaN]) is
    outside the model and read as [0]. *)
Definition Number_of_value (value : string) : Z :=
  match JS.parseInt value with
  | Some n => n
  | None => 0
  end.

(** [for (let i = 0; i <= max; i++) ...]: one unchecked button per score. *)
Definition makeRadioRow (name : string) (max : nat) : list Radio :=
  map (fun i => mkRadio name (JS.String_ (Z.of_nat i))
                  (JS.String_ (Z.of_nat i)) false)
    (seq 0 (S max)).

(** A question as [addQuestions] appends it: its title and its row. *)
Record Question : Type := mkQuestion {
  question_title : string;
  question_row : list Radio
}.

(** [items.forEach((txt, idx) => ...)], the index starting at [idx]. *)
Fixpoint questionsFrom (items : list string) (idx : nat) (prefix : string)
  (maxScore : nat) : list Question :=
  match items with
  | [] => []
  | txt :: rest =>
      mkQuestion (JS.String_ (Z.of_nat idx + 1) ++ ". " ++ txt)
        (makeRadioRow (prefix ++ JS.String_ (Z.of_nat idx)) maxScore)
        :: questionsFrom rest (S idx) prefix maxScore
  end.

(** The content [addQuestions] gives its container (nothing is done when
    the container is missing). *)
Definition addQuestions (items : list string) (prefix : string)
  (maxScore : nat) : list Question :=
  questionsFrom items 0 prefix maxScore.

(** The radio buttons of a page after both calls of [addQuestions], both
    containers being there. *)
Definition mountedRadios : list Radio :=
  (flat_map question_row (addQuestions NOSE_ITEMS "nose_" 4)
     ++ flat_map question_row (addQuestions SNOT_ITEMS "snot_" 5))%list.

(** [document.querySelector(`input[name="<name>"]:checked`)]: the first
    checked button of the group, in document order. *)
Definition querySelectorChecked (radios : list Radio) (name : string)
  : option Radio :=
  find (fun r => String.eqb (radio_name r) name && radio_checked r) radios.

Definition getScores (radios : list Radio) (prefix : string) (count : nat)
  : Scores :=
  map (fun i =>
         match querySelectorChecked radios (prefix ++ JS.String_ (Z.of_nat i)) with
         | Some sel => Some (Number_of_value (radio_value sel))
         | None => None
         end)
    (seq 0 count).

Definition uncheck (r : Radio) : Radio :=
  mkRadio (radio_name r) (radio_value r) (radio_label r) false.

(** [document.querySelectorAll(`input[name="<name>"]`).forEach(r =>
    (r.checked = false))] *)
Definition uncheckNamed (name : string) (radios : list Radio) : list Radio :=
  map (fun r => if String.eqb (radio_name r) name then uncheck r else r) radios.

Definition resetRadiosByPrefix (radios : list Radio) (prefix : string)
  (count : nat) : list Radio :=
  fold_left (fun rs i => uncheckNamed (prefix ++ JS.String_ (Z.of_nat i)) rs)
    (seq 0 count) radios.

Definition resetAllRadios (radios : list Radio) : list Radio :=
  map uncheck radios.

(** Two states of the same buttons: only the checked flags may differ. *)
Definition same_buttons (a b : list Radio) : Prop :=
  map (fun r => (radio_name r, radio_value r, radio_label r)) a
  = map (fun r => (radio_name r, radio_value r, radio_label r)) b.

(** [s.padStart(targetLength, fill)] for a one-character fill. *)
Fixpoint fill_string (fill : ascii) (n : nat) : string :=
  match n with
  | O => EmptyString
  | S n => String fill (fill_string fill n)
  end.

Definition padStart (s : string) (targetLength : nat) (fill : ascii) : string :=
  fill_string fill (targetLength - String.length s) ++ s.

(** [todayIso], the clock read through its three getters:
    [now.getFullYear()], [now.getMonth()] (from 0) and [now.getDate()]. *)
Definition todayIso (fullYear month date : Z) : string :=
  let y := padStart (JS.String_ fullYear) 4 "0" in
  let m := padStart (JS.String_ (month + 1)) 2 "0" in
  let d := padStart (JS.String_ date) 2 "0" in
  y ++ "-" ++ m ++ "-" ++ d.

(** A page: its radio buttons, the value of each element that exists, by
    id ([None] when [getElementById] finds nothing), and whether
    [navigator.clipboard.writeText] succeeds. *)
Record Page : Type := mkPage {
  radios : list Radio;
  elements : string -> option string;
  clipboard_ok : bool
}.

(** [(document.getElementById(id) || {}).value || ""] *)
Definition valueOf (page : Page) (id : string) : string :=
  match elements page id with
  | Some v => v
  | None => EmptyString
  end.

(** [const el = document.getElementById(id); if (el) el.value = v] *)
Definition setValue (id v : string) (page : Page) : Page :=
  mkPage (radios page)
    (fun k => if String.eqb k id
              then match elements page k with
                   | Some _ => Some v
                   | None => None
                   end
              else elements page k)
    (clipboard_ok page).

Definition setRadios (rs : list Radio) (page : Page) : Page :=
  mkPage rs (elements page) (clipboard_ok page).

(** What a handler does to the outside, in order. *)
Inductive Effect : Type :=
| SetValue (id text : string)      (* el.value = text *)
| SetText (id text : string)       (* el.textContent = text *)
| ClipboardWrite (text : string)   (* navigator.clipboard.writeText(text) *)
| SelectAndCopy (id : string)      (* focus, select, execCommand("copy") *)
| Alert (msg : string)             (* alert(msg) *)
| Navigate (href : string).        (* window.location.href = href *)

(** [if (el) el.value = text] *)
Definition setValueIfPresent (page : Page) (id text : string) : list Effect :=
  match elements page id with
  | Some _ => [SetValue id text]
  | None => []
  end.

Definition setTextIfPresent (page : Page) (id text : string) : list Effect :=
  match elements page id with
  | Some _ => [SetText id text]
  | None => []
  end.

(** [copyToClipboard]: its effects and the boolean it resolves to. *)
Definition copyToClipboard (page : Page) (text : string)
  : list Effect * bool :=
  if clipboard_ok page then ([ClipboardWrite text], true)
  else match elements page "preview" with
       | None => ([], false)
       | Some _ => ([SetValue "preview" text; SelectAndCopy "preview"], true)
       end.

(** [scores.filter(v => v !== null).map(Number)] *)
Definition answeredNumbers (scores : Scores) : list Z :=
  map JS.Number (filter is_answered scores).

(** ** The clinician page *)

Definition clinicianOnChange (page : Page) : list Effect :=
  let noseScores := getScores (radios page) "nose_" (List.length NOSE_ITEMS) in
  let snotScores := getScores (radios page) "snot_" (List.length SNOT_ITEMS) in
  let noseAnswered := answeredNumbers noseScores in
  let snotAnswered := answeredNumbers snotScores in
  (setTextIfPresent page "noseTotal" (JS.String_ (sum noseAnswered))
     ++ setTextIfPresent page "snotTotal" (JS.String_ (sum snotAnswered))
     ++ match elements page "preview" with
        | None => []
        | Some _ =>
            match buildSmartTSV noseScores snotScores with
            | Return r => [SetValue "preview" (tsv r)]
            | Throw message => [SetValue "preview" message]
            end
        end)%list.

Definition copiedAlert (m : Mode) : string :=
  match m with
  | full => "Copied FULL TSV. Paste into the first cell of the correct PROM block (baseline or follow-up)."
  | nose => "Copied NOSE TSV only. Paste into the first NOSE cell of the correct block (won’t affect SNOT-22 cells)."
  | snot => "Copied SNOT-22 TSV only. Paste into the first SNOT-22 cell of the correct block (won’t affect NOSE cells)."
  end.

Definition copySheetClick (page : Page) : list Effect :=
  let noseScores := getScores (radios page) "nose_" (List.length NOSE_ITEMS) in
  let snotScores := getScores (radios page) "snot_" (List.length SNOT_ITEMS) in
  match buildSmartTSV noseScores snotScores with
  | Throw message => [Alert message]
  | Return result =>
      (setValueIfPresent page "preview" (tsv result)
         ++ fst (copyToClipboard page (tsv result))
         ++ [Alert (copiedAlert (mode result))])%list
  end.

(** [const block = blockSel ? blockSel.value : "baseline"] and its label. *)
Definition blockLabelOf (page : Page) : string :=
  let block := match elements page "block" with
               | Some v => v
               | None => "baseline"
               end in
  if String.eqb block "followup" then "Follow-up" else "Baseline".

Definition copyEprClick (page : Page) : list Effect :=
  let dateIso := valueOf page "date" in
  let timepoint := valueOf page "timepoint" in
  let blockLabel := blockLabelOf page in
  let noseScores := getScores (radios page) "nose_" (List.length NOSE_ITEMS) in
  let snotScores := getScores (radios page) "snot_" (List.length SNOT_ITEMS) in
  match (let* noseState := assertNotPartialOrThrow "NOSE" noseScores in
         let* snotState := assertNotPartialOrThrow "SNOT-22" snotScores in
         Return (noseState, snotState)) with
  | Throw message => [Alert message]
  | Return (noseState, snotState) =>
      if CompletionState_eqb noseState empty
         && CompletionState_eqb snotState empty
      then [Alert "Please complete NOSE and/or SNOT-22 before copying EPR text."]
      else
        let noseNums :=
          if CompletionState_eqb noseState complete
          then Some (scoresToNumbers noseScores) else None in
        let snotNums :=
          if CompletionState_eqb snotState complete
          then Some (scoresToNumbers snotScores) else None in
        let txt := buildEprText dateIso timepoint blockLabel noseNums snotNums in
        (setValueIfPresent page "preview" txt
           ++ fst (copyToClipboard page txt)
           ++ [Alert "Copied EPR text."])%list
  end.

(** What an effect leaves on the page: the value written to an element or,
    for an element without a value such as the two totals, the text written
    to it.  Alerts, copies and navigation leave the page as it is. *)
Definition applyEffect (e : Effect) (page : Page) : Page :=
  match e with
  | SetValue id text => setValue id text page
  | SetText id text => setValue id text page
  | _ => page
  end.

Definition applyEffects (trace : list Effect) (page : Page) : Page :=
  fold_left (fun p e => applyEffect e p) trace page.

(** The page once [resetRadiosByPrefix] has run, before [onChange]. *)
Definition noseCleared (page : Page) : Page :=
  setRadios (resetRadiosByPrefix (radios page) "nose_" (List.length NOSE_ITEMS))
    page.

Definition snotCleared (page : Page) : Page :=
  setRadios (resetRadiosByPrefix (radios page) "snot_" (List.length SNOT_ITEMS))
    page.

(** The reset buttons of one questionnaire on the clinician page:
    [resetRadiosByPrefix], then [onChange].  The page they leave, and the
    effects of that [onChange]. *)
Definition resetNoseClick (page : Page) : Page * list Effect :=
  let cleared := noseCleared page in
  let trace := clinicianOnChange cleared in
  (applyEffects trace cleared, trace).

Definition resetSnotClick (page : Page) : Page * list Effect :=
  let cleared := snotCleared page in
  let trace := clinicianOnChange cleared in
  (applyEffects trace cleared, trace).

(** The full reset of the clinician page, up to its closing [onChange].  The
    clock is read through its getters, as in [todayIso]. *)


(** ** The patient page *)

(** [config.emailTo || "nasalprom@yourorganisation.example"] *)
Definition emailToOf (configured : option string) : string :=
  match configured with
  | Some (String c rest) => String c rest
  | _ => "nasalprom@yourorganisation.example"
  end.



(** [buildPatientMessageOrThrow] as the page calls it. *)
Definition pagePatientMessage (config : Config) (page : Page) : result Message :=
  buildPatientMessageOrThrow config
    (valueOf page "p_date") (valueOf page "p_timepoint")
    (getScores (radios page) "nose_" (List.length NOSE_ITEMS))
    (getScores (radios page) "snot_" (List.length SNOT_ITEMS)).

(** [encodeURIComponent] on a UTF-8 string: every byte but the unreserved
    characters A-Z a-z 0-9 - _ . ! ~ * ' ( ) becomes %XX. *)
Definition uri_unreserved (c : ascii) : bool :=
  let n := nat_of_ascii c in
  (Nat.leb 65 n && Nat.leb n 90) || (Nat.leb 97 n && Nat.leb n 122)
  || (Nat.leb 48 n && Nat.leb n 57)
  || existsb (Nat.eqb n) [45; 95; 46; 33; 126; 42; 39; 40; 41]%nat.

Definition hex_digit (n : nat) : ascii :=
  if Nat.ltb n 10 then ascii_of_nat (48 + n) else ascii_of_nat (55 + n).

Definition percent_encode (c : ascii) : string :=
  let n := nat_of_ascii c in
  String "%" (String (hex_digit (n / 16)) (String (hex_digit (n mod 16))
                                             EmptyString)).

Fixpoint encodeURIComponent (s : string) : string :=
  match s with
  | EmptyString => EmptyString
  | String c rest =>
      (if uri_unreserved c then String c EmptyString else percent_encode c)
        ++ encodeURIComponent rest
  end.

Definition mailtoLink (emailTo : string) (msg : Message) : string :=
  "mailto:" ++ encodeURIComponent emailTo
    ++ "?subject=" ++ encodeURIComponent (subject msg)
    ++ "&body=" ++ encodeURIComponent (body msg).

Definition emailResultsClick (config : Config) (configuredEmailTo : option string)
  (page : Page) : list Effect :=
  match pagePatientMessage config page with
  | Throw message => [Alert message]
  | Return msg => [Navigate (mailtoLink (emailToOf configuredEmailTo) msg)]
  end.

Definition copyPatientTextClick (config : Config) (page : Page) : list Effect :=
  match pagePatientMessage config page with
  | Throw message => [Alert message]
  | Return msg =>
      (setValueIfPresent page "preview" (body msg)
         ++ fst (copyToClipboard page (body msg))
         ++ [Alert "Copied results text."])%list
  end.


(** Reading a percent-encoded string back, as the receiver of the link
    does; only used to state that the encoding loses nothing. *)
Definition unhex (c : ascii) : nat :=
  let n := nat_of_ascii c in
  if Nat.leb 48 n && Nat.leb n 57 then n - 48
  else if Nat.leb 65 n && Nat.leb n 70 then n - 55
  else if Nat.leb 97 n && Nat.leb n 102 then n - 87
  else 0.

Fixpoint percent_decode (s : string) : string :=
  match s with
  | EmptyString => EmptyString
  | String c rest =>
      if Ascii.eqb c "%"
      then match rest with
           | String h1 (String h2 rest') =>
               String (ascii_of_nat (16 * unhex h1 + unhex h2))
                 (percent_decode rest')
           | _ => String c (percent_decode rest)
           end
      else String c (percent_decode rest)
  end.

(** The characters an encoded component can hold. *)
Definition uri_safe (c : ascii) : bool :=
  uri_unreserved c || Ascii.eqb c "%".

(** Answers no output is made from: a questionnaire partly completed, or
    both questionnaires empty. *)
Definition blocked (noseScores snotScores : Scores) : Prop :=
  completionState noseScores = partial
  \/ completionState snotScores = partial
  \/ (completionState noseScores = empty
      /\ completionState snotScores = empty).

(** The answers as a page's handlers read them. *)
Definition noseScoresOf (page : Page) : Scores :=
  getScores (radios page) "nose_" (List.length NOSE_ITEMS).

Definition snotScoresOf (page : Page) : Scores :=
  getScores (radios page) "snot_" (List.length SNOT_ITEMS).

(** Does a handler's trace put anything on the clipboard? *)
Definition copies (e : Effect) : bool :=
  match e with
  | ClipboardWrite _ | SelectAndCopy _ => true
  | _ => false
  end.

(** A page with every NOSE item answered 1, no SNOT-22 answer, no element
    and a clipboard that refuses: an example for the handlers. *)
Definition bareNosePage : Page :=
  mkPage (map (fun i => mkRadio ("nose_" ++ JS.String_ (Z.of_nat i)) "1" "1" true)
            (seq 0 5))
    (fun _ => None) false.

(** What the clinician page shows in its preview: the row, or the message
    of the failure. *)
Definition clinicianShown (noseScores snotScores : Scores) : string :=
  match buildSmartTSV noseScores snotScores with
  | Return r => tsv r
  | Throw message => message
  end.

(** The script's page with the button "3" of every question checked. *)
Definition threesChecked : list Radio :=
  map (fun r => if String.eqb (radio_value r) "3"
                then mkRadio (radio_name r) (radio_value r) (radio_label r) true
                else r)
    mountedRadios.

(** A page with every element, every NOSE item answered 1 and every
    SNOT-22 item answered 2. *)
Definition answeredPage : Page :=
  mkPage
    (map (fun i => mkRadio ("nose_" ++ JS.String_ (Z.of_nat i)) "1" "1" true)
       (seq 0 5)
       ++ map (fun i => mkRadio ("snot_" ++ JS.String_ (Z.of_nat i)) "2" "2" true)
            (seq 0 22))%list
    (fun _ => Some EmptyString) true.

(** The narrative rule read on the returned text, for every call: no line
    of an omitted instrument's block, and no blank line at the end. *)
Definition narrative_text_as_stated (dateIso timepoint blockLabel : string)
  (noseOpt snotOpt : option (list Z)) : Prop :=
  let text := buildEprText dateIso timepoint blockLabel noseOpt snotOpt in
  (noseOpt = None ->
   Forall (fun l => starts_with "NOSE" l = false) (JS.split JS.NL text))
  /\ (snotOpt = None ->
      Forall (fun l => starts_with "SNOT-22" l = false) (JS.split JS.NL text))
  /\ JS.last_char text <> Some JS.NL.

(** ** The earlier, simpler script *)

Module Simple.

(** There an unanswered item counts as [0]. *)
Definition getScores (radios : list Radio) (prefix : string) (count : nat)
  : list Z :=
  map (fun i =>
         match querySelectorChecked radios (prefix ++ JS.String_ (Z.of_nat i)) with
         | Some sel => Number_of_value (radio_value sel)
         | None => 0
         end)
    (seq 0 count).

Definition buildBlockTSV (noseScores snotScores : list Z) : string :=
  let cols :=
    (map JS.String_ noseScores
       ++ [JS.String_ (sum noseScores)]
       ++ map JS.String_ snotScores
       ++ [JS.String_ (sum snotScores)])%list in
  JS.join (JS.str JS.TAB) cols.

End Simple.

(** ** Sanity checks on concrete inputs *)

Example ddmmyyyy_iso : ddmmyyyy "2024-03-05" = "05/03/2024".
Proof. reflexivity. Qed.

Example completionState_mixed :
  completionState [Some 1; None; Some 0] = partial.
Proof. reflexivity. Qed.

Example nose_only_row :
  buildNoseOnlyTSV [1; 2; 3; 4; 0]
  = "1" ++ JS.str JS.TAB ++ "2" ++ JS.str JS.TAB ++ "3" ++ JS.str JS.TAB
      ++ "4" ++ JS.str JS.TAB ++ "0" ++ JS.str JS.TAB ++ "10".
Proof. reflexivity. Qed.

Example snot_only_selection :
  option_map (fun r => (mode r, List.length (JS.split JS.TAB (tsv r)),
                        last (JS.split JS.TAB (tsv r)) EmptyString,
                        noseNums r))
    (match buildSmartTSV (repeat None 5) (repeat (Some 2) 22) with
     | Return r => Some r
     | Throw _ => None
     end)
  = Some (snot, 23%nat, "44", None).
Proof. reflexivity. Qed.

Example nose_all_max_report :
  JS.split JS.NL (buildEprText "" "" "" (Some [4; 4; 4; 4; 4]) None)
  = [ "PROMs recorded:";
      "";
      "NOSE raw total: 20 / 20";
      "NOSE score (0–100): 100 / 100";
      "- Nasal congestion: 4";
      "- Nasal obstruction: 4";
      "- Trouble breathing through nose: 4";
      "- Trouble sleeping: 4";
      "- Unable to get enough air through nose during exercise: 4" ].
Proof. reflexivity. Qed.

Example partial_nose_blocks_the_row :
  buildSmartTSV [Some 1; None; Some 1; Some 1; Some 1] (repeat None 22)
  = Throw "NOSE is partly completed. Please answer all questions in NOSE, or clear it and leave it blank.".
Proof. reflexivity. Qed.

(** * Facts about the string primitives *)

Module JSFacts.
Import JS.

Lemma append_assoc (a b c : string) : (a ++ b) ++ c = a ++ (b ++ c).
Proof. induction a as [|x a IH]; simpl; [reflexivity|now rewrite IH]. Qed.

Lemma append_empty_r (a : string) : a ++ EmptyString = a.
Proof. induction a as [|x a IH]; simpl; [reflexivity|now rewrite IH]. Qed.

Lemma has_char_app c a b :
  has_char c (a ++ b) = has_char c a || has_char c b.
Proof.
  induction a as [|x a IH]; simpl; [reflexivity|].
  now rewrite IH, orb_assoc.
Qed.

Lemma split_not_nil sep s : split sep s <> [].
Proof.
  destruct s as [|c s]; simpl; [discriminate|].
  destruct (Ascii.eqb c sep); [discriminate|].
  destruct (split sep s); discriminate.
Qed.

Lemma split_no_sep sep s : has_char sep s = false -> split sep s = [s].
Proof.
  induction s as [|c s IH]; simpl; intros H; [reflexivity|].
  apply orb_false_iff in H as [Hc Hs].
  rewrite Hc, (IH Hs). reflexivity.
Qed.

Lemma split_app_sep sep a b :
  split sep (a ++ String sep b) = (split sep a ++ split sep b)%list.
Proof.
  induction a as [|c a IH]; simpl.
  - now rewrite Ascii.eqb_refl.
  - destruct (Ascii.eqb c sep); [now rewrite IH|].
    rewrite IH.
    destruct (split sep a) as [|p ps] eqn:E; [|reflexivity].
    now apply split_not_nil in E.
Qed.

Lemma join_cons2 sep x y l :
  join sep (x :: y :: l) = x ++ sep ++ join sep (y :: l).
Proof. reflexivity. Qed.

(** Splitting a joined array on the joining character gives back the
    pieces of each element. *)
Lemma split_join sep l :
  l <> [] ->
  split sep (join (str sep) l) = List.concat (map (split sep) l).
Proof.
  induction l as [|x [|y l] IH]; intros Hl.
  - contradiction.
  - simpl. now rewrite app_nil_r.
  - rewrite join_cons2.
    change (x ++ str sep ++ join (str sep) (y :: l))
      with (x ++ String sep (join (str sep) (y :: l))).
    rewrite split_app_sep, IH by discriminate. reflexivity.
Qed.

(** ... and the array itself when no element holds the character. *)
Lemma split_join_fields sep l :
  l <> [] ->
  Forall (fun f => has_char sep f = false) l ->
  split sep (join (str sep) l) = l.
Proof.
  intros Hl Hf. rewrite split_join by assumption.
  clear Hl. induction Hf as [|x l Hx _ IH]; simpl; [reflexivity|].
  now rewrite (split_no_sep _ _ Hx), IH.
Qed.

Lemma split_pieces_no_sep sep s :
  Forall (fun f => has_char sep f = false) (split sep s).
Proof.
  induction s as [|c s IH]; simpl.
  - now constructor.
  - destruct (Ascii.eqb c sep) eqn:E; [now constructor|].
    destruct (split sep s) as [|p ps]; [constructor; simpl; [now rewrite E|constructor]|].
    inversion IH; subst. constructor; [simpl; now rewrite E|assumption].
Qed.

Lemma join_split sep s : join (str sep) (split sep s) = s.
Proof.
  induction s as [|c s IH]; simpl; [reflexivity|].
  destruct (Ascii.eqb_spec c sep) as [->|Hc].
  - destruct (split sep s) as [|p ps] eqn:E; [now apply split_not_nil in E|].
    change (join (str sep) (EmptyString :: p :: ps))
      with (String sep (join (str sep) (p :: ps))).
    now rewrite IH.
  - destruct (split sep s) as [|p ps] eqn:E; [now apply split_not_nil in E|].
    destruct ps as [|q ps]; simpl in *; now rewrite <- IH.
Qed.

Lemma last_char_app a b :
  b <> EmptyString -> last_char (a ++ b) = last_char b.
Proof.
  intros Hb. induction a as [|c a IH]; simpl; [reflexivity|].
  rewrite IH. destruct (a ++ b) eqn:E; [|reflexivity].
  destruct a; simpl in E; [contradiction|discriminate].
Qed.

Lemma last_char_has c s : last_char s = Some c -> has_char c s = true.
Proof.
  induction s as [|a s IH]; simpl; [discriminate|].
  destruct s as [|b s].
  - intros [= ->]. now rewrite Ascii.eqb_refl.
  - intros H. rewrite (IH H). apply orb_true_r.
Qed.

Lemma join_snoc sep l x :
  exists pre, join sep (l ++ [x]) = pre ++ x.
Proof.
  induction l as [|a l [pre IH]].
  - now exists EmptyString.
  - destruct l as [|b l].
    + exists (a ++ sep). unfold join; simpl. now rewrite append_assoc.
    + change ((a :: b :: l) ++ [x])%list with (a :: b :: (l ++ [x]))%list.
      rewrite join_cons2.
      change (b :: l ++ [x])%list with ((b :: l) ++ [x])%list.
      rewrite IH. exists (a ++ sep ++ pre).
      now rewrite !append_assoc.
Qed.

Lemma all_chars_no_char p c s :
  all_chars p s = true -> p c = false -> has_char c s = false.
Proof.
  intros Hs Hc. induction s as [|a s IH]; simpl in *; [reflexivity|].
  apply andb_true_iff in Hs as [Ha Hs]. rewrite (IH Hs), orb_false_r.
  destruct (Ascii.eqb_spec a c) as [->|]; [congruence|reflexivity].
Qed.

Lemma all_chars_app p a b :
  all_chars p (a ++ b) = all_chars p a && all_chars p b.
Proof.
  induction a as [|x a IH]; simpl; [reflexivity|].
  now rewrite IH, andb_assoc.
Qed.

Lemma string_of_uint_num_chars d :
  all_chars is_num_char (NilEmpty.string_of_uint d) = true.
Proof. induction d; simpl; auto. Qed.

Lemma String__num_chars n : all_chars is_num_char (String_ n) = true.
Proof.
  unfold String_. destruct (Z.to_int n); simpl;
    apply string_of_uint_num_chars.
Qed.

Lemma String__no_tab n : has_char TAB (String_ n) = false.
Proof. apply (all_chars_no_char _ _ _ (String__num_chars n)). reflexivity. Qed.

Lemma String__no_nl n : has_char NL (String_ n) = false.
Proof. apply (all_chars_no_char _ _ _ (String__num_chars n)). reflexivity. Qed.

(** Rendering then reading gives the number back. *)
Lemma parseInt_String_ n : parseInt (String_ n) = Some n.
Proof.
  unfold parseInt, String_. rewrite NilEmpty.isi. simpl.
  now rewrite DecimalZ.of_to.
Qed.

Lemma String__not_empty n : String_ n <> EmptyString.
Proof.
  intros E. pose proof (parseInt_String_ n) as H. rewrite E in H.
  injection H as <-. discriminate E.
Qed.

Lemma String__last_char n c :
  last_char (String_ n) = Some c -> is_num_char c = true.
Proof.
  intros H. apply last_char_has in H.
  destruct (is_num_char c) eqn:E; [reflexivity|].
  now rewrite (all_chars_no_char _ _ _ (String__num_chars n) E) in H.
Qed.

End JSFacts.

(** * Completion classification *)

Section Completion.

Implicit Types (scores : Scores) (label : string).

Local Notation "'answered_slot'" := (fun v : option Z => is_answered v = true).
Local Notation "'blank_slot'" := (fun v : option Z => is_answered v = false).

Lemma answered_count_zero scores :
  List.length (filter is_answered scores) = 0%nat <-> Forall blank_slot scores.
Proof.
  induction scores as [|v l IH]; simpl.
  - split; [constructor|reflexivity].
  - destruct (is_answered v) eqn:E; simpl.
    + split; [discriminate|]. intros H. inversion H; congruence.
    + rewrite IH. split; [now constructor|]. intros H. now inversion H.
Qed.

Lemma answered_count_all scores :
  List.length (filter is_answered scores) = List.length scores
  <-> Forall answered_slot scores.
Proof.
  induction scores as [|v l IH]; simpl.
  - split; [constructor|reflexivity].
  - pose proof (filter_length_le is_answered l) as Hle.
    destruct (is_answered v) eqn:E; simpl.
    + split.
      * intros [= H]. constructor; [assumption|now apply IH].
      * intros H. inversion H; subst. f_equal. now apply IH.
    + split; [lia|]. intros H. inversion H; congruence.
Qed.

Lemma completionState_complete_iff scores :
  completionState scores = complete
  <-> scores <> [] /\ Forall answered_slot scores.
Proof.
  unfold completionState. rewrite <- answered_count_all.
  destruct (Nat.eqb_spec (List.length (filter is_answered scores)) 0) as [E0|N0].
  - split; [discriminate|]. intros [Hne Hall]. rewrite E0 in Hall.
    destruct scores; [contradiction|discriminate].
  - destruct (Nat.eqb_spec (List.length (filter is_answered scores))
                (List.length scores)) as [E|N].
    + split; [|reflexivity]. intros _. split; [|assumption].
      intros ->. now apply N0.
    + split; [discriminate|]. now intros [_ H].
Qed.

Lemma completionState_empty_iff scores :
  completionState scores = empty <-> Forall blank_slot scores.
Proof.
  unfold completionState. rewrite <- answered_count_zero.
  destruct (Nat.eqb_spec (List.length (filter is_answered scores)) 0) as [E0|N0].
  - now split.
  - destruct (Nat.eqb (List.length (filter is_answered scores))
                (List.length scores)); split; (discriminate || contradiction).
Qed.

Lemma completionState_partial_iff scores :
  completionState scores = partial
  <-> ~ Forall answered_slot scores /\ ~ Forall blank_slot scores.
Proof.
  unfold completionState.
  rewrite <- answered_count_all, <- answered_count_zero.
  destruct (Nat.eqb_spec (List.length (filter is_answered scores)) 0) as [E0|N0].
  - split; [discriminate|]. now intros [_ H].
  - destruct (Nat.eqb_spec (List.length (filter is_answered scores))
                (List.length scores)) as [E|N].
    + split; [discriminate|]. now intros [H _].
    + now split.
Qed.

(** On a complete list [scoresToNumbers] only unwraps the answers: no
    [null] is turned into a zero. *)
Lemma scoresToNumbers_complete scores :
  completionState scores = complete ->
  map Some (scoresToNumbers scores) = scores.
Proof.
  intros H. apply completionState_complete_iff in H as [_ H].
  induction H as [|v l Hv _ IH]; simpl; [reflexivity|].
  rewrite IH. destruct v; [reflexivity|discriminate].
Qed.

Lemma scoresToNumbers_length scores :
  List.length (scoresToNumbers scores) = List.length scores.
Proof. apply length_map. Qed.

Lemma assertNotPartialOrThrow_usable label scores :
  completionState scores <> partial ->
  assertNotPartialOrThrow label scores = Return (completionState scores).
Proof.
  unfold assertNotPartialOrThrow.
  destruct (completionState scores); simpl; congruence.
Qed.

(** C2 (as amended).  For every answer list the classifier, a total
    function, returns [complete] iff the list is not zero-length and every
    slot is answered, [empty] iff no slot is answered, and [partial] iff
    neither holds, that is iff some slot is answered and some is not. *)
Theorem completionState_classifies scores :
  (completionState scores = complete
     <-> scores <> [] /\ Forall (fun v => is_answered v = true) scores)
  /\ (completionState scores = empty
     <-> Forall (fun v => is_answered v = false) scores)
  /\ (completionState scores = partial
     <-> ~ Forall (fun v => is_answered v = true) scores
         /\ ~ Forall (fun v => is_answered v = false) scores).
Proof.
  split; [apply completionState_complete_iff|].
  split; [apply completionState_empty_iff|apply completionState_partial_iff].
Qed.

(** C2, read literally, fails on the zero-length list: every slot of it is
    answered, vacuously, and the classifier reports [empty]. *)
Lemma classify_as_stated_fails_on_nil : ~ classify_as_stated [].
Proof.
  intros [[_ Hcomplete] _].
  specialize (Hcomplete (Forall_nil _)). discriminate Hcomplete.
Qed.

(** C9.  On the zero-length list, where "every slot is answered" holds
    vacuously, the classifier returns [empty] and not [complete]; and on
    every list, of any length, it reports exactly one of the three
    states. *)
Theorem completionState_nil_is_empty :
  Forall (fun v => is_answered v = true) ([] : Scores)
  /\ completionState [] = empty
  /\ completionState [] <> complete
  /\ forall scores,
       (completionState scores = empty
          /\ completionState scores <> partial
          /\ completionState scores <> complete)
       \/ (completionState scores = partial
          /\ completionState scores <> empty
          /\ completionState scores <> complete)
       \/ (completionState scores = complete
          /\ completionState scores <> empty
          /\ completionState scores <> partial).
Proof.
  split; [constructor|]. split; [reflexivity|]. split; [discriminate|].
  intros scores. destruct (completionState scores).
  - left. repeat split; discriminate.
  - right; left. repeat split; discriminate.
  - right; right. repeat split; discriminate.
Qed.

(** C3.  [assertNotPartialOrThrow] returns the classification when it is
    [empty] or [complete]; on a [partial] input it does not return: it
    throws exactly "<label> is partly completed. Please answer all
    questions in <label>, or clear it and leave it blank.", a message that
    contains the label. *)
Theorem assertNotPartialOrThrow_gate label scores :
  (completionState scores <> partial ->
     assertNotPartialOrThrow label scores = Return (completionState scores))
  /\ (completionState scores = partial ->
     assertNotPartialOrThrow label scores
     = Throw (label ++ " is partly completed. Please answer all questions in "
                ++ label ++ ", or clear it and leave it blank.")
     /\ (forall st, assertNotPartialOrThrow label scores <> Return st)
     /\ forall msg, assertNotPartialOrThrow label scores = Throw msg ->
                    contains label msg).
Proof.
  split; [apply assertNotPartialOrThrow_usable|].
  intros Hp. unfold assertNotPartialOrThrow. rewrite Hp. simpl.
  split; [reflexivity|]. split; [discriminate|].
  intros msg [= <-]. exists EmptyString. eexists. reflexivity.
Qed.

Lemma assertNotPartialOrThrow_gate_witness :
  completionState [Some 2; None; Some 0] = partial
  /\ assertNotPartialOrThrow "NOSE" [Some 2; None; Some 0]
     = Throw "NOSE is partly completed. Please answer all questions in NOSE, or clear it and leave it blank."
  /\ completionState [Some 2; Some 4; Some 0] <> partial
  /\ assertNotPartialOrThrow "NOSE" [Some 2; Some 4; Some 0] = Return complete.
Proof.
  split; [reflexivity|]. split.
  - apply (proj2 (assertNotPartialOrThrow_gate "NOSE" [Some 2; None; Some 0])).
    reflexivity.
  - split; [discriminate|].
    apply (proj1 (assertNotPartialOrThrow_gate "NOSE" [Some 2; Some 4; Some 0])).
    discriminate.
Defined.

End Completion.

(** * TSV rows *)

Section Rows.

Implicit Types (noseNums snotNums nums : list Z).

(** [sum] is the sum of the values. *)
Lemma sum_fold_right nums : sum nums = fold_right Z.add 0 nums.
Proof.
  unfold sum. apply fold_symmetric; intros; lia.
Qed.

(** A row of rendered integers splits back into its fields. *)
Lemma row_fields nums :
  nums <> [] ->
  JS.split JS.TAB (JS.join (JS.str JS.TAB) (map JS.String_ nums))
  = map JS.String_ nums.
Proof.
  intros Hne. apply JSFacts.split_join_fields.
  - destruct nums; [contradiction|discriminate].
  - apply Forall_map, Forall_forall. intros n _. apply JSFacts.String__no_tab.
Qed.

(** A row of rendered integers ends in a digit, and is one line. *)
Lemma row_shape nums x :
  JS.last_char (JS.join (JS.str JS.TAB) (map JS.String_ (nums ++ [x])))
    <> Some JS.TAB
  /\ JS.has_char JS.NL (JS.join (JS.str JS.TAB) (map JS.String_ (nums ++ [x])))
     = false.
Proof.
  split.
  - rewrite map_app. simpl map.
    destruct (JSFacts.join_snoc (JS.str JS.TAB) (map JS.String_ nums)
                (JS.String_ x)) as [pre ->].
    rewrite JSFacts.last_char_app by apply JSFacts.String__not_empty.
    intros H. apply JSFacts.String__last_char in H. discriminate H.
  - generalize (nums ++ [x])%list. intros l.
    induction l as [|a [|b l] IH]; [reflexivity| |].
    + apply JSFacts.String__no_nl.
    + change (map JS.String_ (a :: b :: l))
        with (JS.String_ a :: JS.String_ b :: map JS.String_ l).
      rewrite JSFacts.join_cons2, !JSFacts.has_char_app.
      rewrite JSFacts.String__no_nl. simpl. exact IH.
Qed.

Lemma buildFullBlockTSV_columns noseNums snotNums :
  buildFullBlockTSV noseNums snotNums
  = JS.join (JS.str JS.TAB)
      (map JS.String_
         ((noseNums ++ [sum noseNums]) ++ snotNums ++ [sum snotNums])).
Proof.
  unfold buildFullBlockTSV. now rewrite !map_app, <- !app_assoc.
Qed.

Lemma buildNoseOnlyTSV_columns nums :
  buildNoseOnlyTSV nums
  = JS.join (JS.str JS.TAB) (map JS.String_ (nums ++ [sum nums])).
Proof. unfold buildNoseOnlyTSV. now rewrite map_app. Qed.

Lemma buildSnotOnlyTSV_columns nums :
  buildSnotOnlyTSV nums
  = JS.join (JS.str JS.TAB) (map JS.String_ (nums ++ [sum nums])).
Proof. unfold buildSnotOnlyTSV. now rewrite map_app. Qed.

Lemma buildFullBlockTSV_fields noseNums snotNums :
  JS.split JS.TAB (buildFullBlockTSV noseNums snotNums)
  = (map JS.String_ noseNums ++ [JS.String_ (sum noseNums)]
       ++ map JS.String_ snotNums ++ [JS.String_ (sum snotNums)])%list.
Proof.
  rewrite buildFullBlockTSV_columns, row_fields.
  - now rewrite !map_app, <- !app_assoc.
  - destruct noseNums; discriminate.
Qed.

Lemma buildNoseOnlyTSV_fields nums :
  JS.split JS.TAB (buildNoseOnlyTSV nums)
  = (map JS.String_ nums ++ [JS.String_ (sum nums)])%list.
Proof.
  rewrite buildNoseOnlyTSV_columns, row_fields; [now rewrite map_app|].
  destruct nums; discriminate.
Qed.

Lemma buildSnotOnlyTSV_fields nums :
  JS.split JS.TAB (buildSnotOnlyTSV nums)
  = (map JS.String_ nums ++ [JS.String_ (sum nums)])%list.
Proof.
  rewrite buildSnotOnlyTSV_columns, row_fields; [now rewrite map_app|].
  destruct nums; discriminate.
Qed.

Lemma parseInt_fields nums :
  map JS.parseInt (map JS.String_ nums) = map Some nums.
Proof.
  rewrite map_map. apply map_ext. apply JSFacts.parseInt_String_.
Qed.

(** A list of known length is a list of that many elements. *)
Ltac explode_list l H :=
  simpl in H;
  repeat (destruct l as [|? l]; [discriminate H|];
          simpl in H; apply Nat.succ_inj in H);
  destruct l; [clear H|discriminate H].

(** C4.  For a complete NOSE list (5 integers) and a complete SNOT list
    (22 integers): the full row splits on tab into exactly 29 fields,
    fields 1-5 the NOSE values in item order, field 6 their sum, fields
    7-28 the SNOT values in order, field 29 their sum; the row does not end
    in a tab and is a single line (no header row); the nose-only row has
    exactly 6 fields and the snot-only row exactly 23, values then sum; and
    every field is the plain decimal rendering of its integer (reading it
    back gives the integer). *)
Theorem tsv_rows_fields noseNums snotNums :
  List.length noseNums = 5%nat ->
  List.length snotNums = 22%nat ->
  let row := buildFullBlockTSV noseNums snotNums in
  let fields := JS.split JS.TAB row in
  List.length fields = 29%nat
  /\ firstn 5 fields = map JS.String_ noseNums
  /\ nth_error fields 5 = Some (JS.String_ (fold_right Z.add 0 noseNums))
  /\ firstn 22 (skipn 6 fields) = map JS.String_ snotNums
  /\ nth_error fields 28 = Some (JS.String_ (fold_right Z.add 0 snotNums))
  /\ map JS.parseInt fields
     = map Some (noseNums ++ [fold_right Z.add 0 noseNums]
                   ++ snotNums ++ [fold_right Z.add 0 snotNums])%list
  /\ JS.last_char row <> Some JS.TAB
  /\ JS.has_char JS.NL row = false
  /\ JS.split JS.TAB (buildNoseOnlyTSV noseNums)
     = (map JS.String_ noseNums ++ [JS.String_ (fold_right Z.add 0 noseNums)])%list
  /\ List.length (JS.split JS.TAB (buildNoseOnlyTSV noseNums)) = 6%nat
  /\ JS.split JS.TAB (buildSnotOnlyTSV snotNums)
     = (map JS.String_ snotNums ++ [JS.String_ (fold_right Z.add 0 snotNums)])%list
  /\ List.length (JS.split JS.TAB (buildSnotOnlyTSV snotNums)) = 23%nat.
Proof.
  intros Hn Hs row fields.
  assert (Hfields :
    fields = map JS.String_
               ((noseNums ++ [sum noseNums]) ++ snotNums ++ [sum snotNums])).
  { subst fields row. rewrite buildFullBlockTSV_fields.
    now rewrite !map_app, <- !app_assoc. }
  assert (Hshape := row_shape ((noseNums ++ [sum noseNums]) ++ snotNums)
                      (sum snotNums)).
  rewrite <- app_assoc, <- buildFullBlockTSV_columns in Hshape.
  fold row in Hshape. destruct Hshape as [Htab Hnl].
  rewrite <- !sum_fold_right.
  split; [rewrite Hfields, length_map, !length_app; simpl; lia|].
  split; [rewrite Hfields; explode_list noseNums Hn; reflexivity|].
  split; [rewrite Hfields; explode_list noseNums Hn; reflexivity|].
  split; [rewrite Hfields; explode_list noseNums Hn;
          explode_list snotNums Hs; reflexivity|].
  split; [rewrite Hfields; explode_list noseNums Hn;
          explode_list snotNums Hs; reflexivity|].
  split; [rewrite Hfields, parseInt_fields, <- app_assoc; reflexivity|].
  split; [exact Htab|]. split; [exact Hnl|].
  rewrite buildNoseOnlyTSV_fields, buildSnotOnlyTSV_fields.
  rewrite !length_app, !length_map, Hn, Hs. repeat split; reflexivity.
Qed.

Lemma tsv_rows_fields_witness :
  List.length [1; 2; 3; 4; 0] = 5%nat
  /\ List.length (repeat 2 22) = 22%nat
  /\ map JS.parseInt
       (JS.split JS.TAB (buildFullBlockTSV [1; 2; 3; 4; 0] (repeat 2 22)))
     = map Some ([1; 2; 3; 4; 0] ++ [10] ++ repeat 2 22 ++ [44])%list.
Proof.
  split; [reflexivity|]. split; [reflexivity|].
  apply (tsv_rows_fields [1; 2; 3; 4; 0] (repeat 2 22));
    reflexivity.
Defined.

End Rows.

(** * Smart TSV selection *)

Section SmartTSV.

Implicit Types (noseScores snotScores : Scores).

Lemma not_partial_cases scores :
  completionState scores <> partial ->
  completionState scores = empty \/ completionState scores = complete.
Proof. destruct (completionState scores); intuition congruence. Qed.

Lemma buildSmartTSV_states noseScores snotScores :
  completionState noseScores <> partial ->
  completionState snotScores <> partial ->
  buildSmartTSV noseScores snotScores
  = match completionState noseScores, completionState snotScores with
    | complete, complete =>
        Return (mkSmartTSV full
                  (buildFullBlockTSV (scoresToNumbers noseScores)
                     (scoresToNumbers snotScores))
                  (Some (scoresToNumbers noseScores))
                  (Some (scoresToNumbers snotScores)))
    | complete, _ =>
        Return (mkSmartTSV nose
                  (buildNoseOnlyTSV (scoresToNumbers noseScores))
                  (Some (scoresToNumbers noseScores)) None)
    | _, complete =>
        Return (mkSmartTSV snot
                  (buildSnotOnlyTSV (scoresToNumbers snotScores))
                  None (Some (scoresToNumbers snotScores)))
    | _, _ => Throw "Please complete NOSE and/or SNOT-22 before copying."
    end.
Proof.
  intros Hn Hs. unfold buildSmartTSV.
  rewrite !assertNotPartialOrThrow_usable by assumption. simpl.
  destruct (completionState noseScores), (completionState snotScores);
    simpl; congruence.
Qed.

(** C1.  For two answer lists neither of which is partial,
    [buildSmartTSV] yields exactly one of four outcomes: both complete,
    mode [full] with the combined row; only NOSE complete, mode [nose]
    with the NOSE-only row; only SNOT-22 complete, mode [snot] with the
    SNOT-only row; both empty, the failure "Please complete NOSE and/or
    SNOT-22 before copying.".  An empty instrument contributes nothing:
    its numbers are absent from the result, the row has only the fields of
    the complete instrument, and the numbers of a complete instrument are
    its answers themselves. *)
Theorem buildSmartTSV_outcomes noseScores snotScores :
  completionState noseScores <> partial ->
  completionState snotScores <> partial ->
  let noseNums := scoresToNumbers noseScores in
  let snotNums := scoresToNumbers snotScores in
  (completionState noseScores = complete
     /\ completionState snotScores = complete
     /\ buildSmartTSV noseScores snotScores
        = Return (mkSmartTSV full (buildFullBlockTSV noseNums snotNums)
                    (Some noseNums) (Some snotNums))
     /\ map Some noseNums = noseScores
     /\ map Some snotNums = snotScores)
  \/ (completionState noseScores = complete
     /\ completionState snotScores = empty
     /\ buildSmartTSV noseScores snotScores
        = Return (mkSmartTSV nose (buildNoseOnlyTSV noseNums)
                    (Some noseNums) None)
     /\ map Some noseNums = noseScores
     /\ List.length (JS.split JS.TAB (buildNoseOnlyTSV noseNums))
        = S (List.length noseScores))
  \/ (completionState noseScores = empty
     /\ completionState snotScores = complete
     /\ buildSmartTSV noseScores snotScores
        = Return (mkSmartTSV snot (buildSnotOnlyTSV snotNums)
                    None (Some snotNums))
     /\ map Some snotNums = snotScores
     /\ List.length (JS.split JS.TAB (buildSnotOnlyTSV snotNums))
        = S (List.length snotScores))
  \/ (completionState noseScores = empty
     /\ completionState snotScores = empty
     /\ buildSmartTSV noseScores snotScores
        = Throw "Please complete NOSE and/or SNOT-22 before copying.").
Proof.
  intros Hn Hs noseNums snotNums.
  pose proof (buildSmartTSV_states _ _ Hn Hs) as Hb.
  pose proof (scoresToNumbers_complete noseScores) as Hnn.
  pose proof (scoresToNumbers_complete snotScores) as Hsn.
  destruct (not_partial_cases _ Hn) as [En|En],
           (not_partial_cases _ Hs) as [Es|Es];
    rewrite En, Es in Hb.
  - right; right; right. auto.
  - right; right; left. repeat split; auto.
    subst snotNums.
    rewrite buildSnotOnlyTSV_fields, length_app, length_map,
      scoresToNumbers_length. simpl. lia.
  - right; left. repeat split; auto.
    subst noseNums.
    rewrite buildNoseOnlyTSV_fields, length_app, length_map,
      scoresToNumbers_length. simpl. lia.
  - left. repeat split; auto.
Qed.

Lemma buildSmartTSV_outcomes_witness :
  completionState [Some 1; Some 2; Some 3; Some 4; Some 0] <> partial
  /\ completionState (repeat None 22) <> partial
  /\ buildSmartTSV [Some 1; Some 2; Some 3; Some 4; Some 0] (repeat None 22)
     = Return (mkSmartTSV nose (buildNoseOnlyTSV [1; 2; 3; 4; 0])
                 (Some [1; 2; 3; 4; 0]) None).
Proof.
  assert (Hn : completionState [Some 1; Some 2; Some 3; Some 4; Some 0]
               <> partial) by discriminate.
  assert (Hs : completionState (repeat None 22 : Scores) <> partial)
    by discriminate.
  split; [exact Hn|]. split; [exact Hs|].
  destruct (buildSmartTSV_outcomes _ _ Hn Hs)
    as [(_ & E & _)|[(_ & _ & E & _)|[(E & _)|(E & _)]]].
  - discriminate E.
  - exact E.
  - discriminate E.
  - discriminate E.
Defined.

End SmartTSV.

(** * The EPR narrative *)

Section Narrative.

Implicit Types (dateIso timepoint blockLabel : string).
Implicit Types (lines : list string) (nums : list Z).

(** ** Trimming trailing blank lines *)

Lemma popTrailingBlanks_blank lines :
  popTrailingBlanks (lines ++ [EmptyString]) = popTrailingBlanks lines.
Proof. unfold popTrailingBlanks. now rewrite rev_unit. Qed.

Lemma popTrailingBlanks_line lines x :
  x <> EmptyString -> popTrailingBlanks (lines ++ [x]) = (lines ++ [x])%list.
Proof.
  intros Hx. unfold popTrailingBlanks. rewrite rev_unit.
  destruct x; [contradiction|]. simpl. now rewrite rev_involutive.
Qed.

(** Whatever the array, after the loop it is empty or ends in a line that
    is not blank. *)
Lemma popTrailingBlanks_last lines :
  popTrailingBlanks lines = []
  \/ exists front x, popTrailingBlanks lines = (front ++ [x])%list
                     /\ x <> EmptyString.
Proof.
  unfold popTrailingBlanks.
  induction (rev lines) as [|a r IH]; simpl; [now left|].
  destruct a as [|c a]; [exact IH|].
  right. exists (rev r), (String c a). split; [reflexivity|discriminate].
Qed.

(** ** Item lines *)

Lemma itemLines_Forall (P : string -> Prop) items i nums :
  (forall t v, P ("- " ++ t ++ ": " ++ JS.tmpl_num v)) ->
  Forall P (itemLines items i nums).
Proof.
  intros HP. revert i. induction items as [|t items IH]; intros i; simpl.
  - constructor.
  - constructor; [apply HP|apply IH].
Qed.

Lemma itemLines_length items i nums :
  List.length (itemLines items i nums) = List.length items.
Proof.
  revert i. induction items as [|t items IH]; intros i; simpl;
    [reflexivity|now rewrite IH].
Qed.

(** With a value for every label, the item lines are those of the labels
    paired with the values, in order. *)
Lemma itemLines_values items seen nums :
  (List.length items <= List.length nums)%nat ->
  itemLines items (List.length seen) (seen ++ nums) = item_lines_of items nums.
Proof.
  revert seen nums. induction items as [|t items IH]; intros seen nums Hlen.
  - reflexivity.
  - destruct nums as [|v nums]; [simpl in Hlen; lia|].
    simpl in Hlen. unfold item_lines_of. simpl. f_equal.
    + rewrite nth_error_app2, Nat.sub_diag by lia. reflexivity.
    + replace (seen ++ v :: nums)%list with ((seen ++ [v]) ++ nums)%list
        by now rewrite <- app_assoc.
      replace (S (List.length seen)) with (List.length (seen ++ [v])%list)
        by (rewrite length_app; simpl; lia).
      apply IH. lia.
Qed.

Lemma itemLines_item_lines_of items nums :
  List.length nums = List.length items ->
  itemLines items 0 nums = item_lines_of items nums.
Proof.
  intros H. apply (itemLines_values items [] nums). lia.
Qed.

(** An item line is never blank and holds no newline unless its label
    does. *)
Lemma item_line_single t v :
  JS.has_char JS.NL t = false ->
  JS.has_char JS.NL ("- " ++ t ++ ": " ++ JS.tmpl_num v) = false.
Proof.
  intros Ht. rewrite !JSFacts.has_char_app, Ht. simpl.
  destruct v; [apply JSFacts.String__no_nl|reflexivity].
Qed.

Lemma itemLines_single items i nums :
  Forall (fun t => JS.has_char JS.NL t = false) items ->
  Forall (fun l => JS.has_char JS.NL l = false) (itemLines items i nums).
Proof.
  intros H. revert i. induction H as [|t items Ht _ IH]; intros i; simpl.
  - constructor.
  - constructor; [now apply item_line_single|apply IH].
Qed.

Lemma NOSE_ITEMS_single :
  Forall (fun t => JS.has_char JS.NL t = false) NOSE_ITEMS.
Proof. repeat constructor. Qed.

Lemma SNOT_ITEMS_single :
  Forall (fun t => JS.has_char JS.NL t = false) SNOT_ITEMS.
Proof. repeat constructor. Qed.

Lemma noseBody_single nums :
  Forall (fun l => JS.has_char JS.NL l = false) (noseBody nums).
Proof.
  unfold noseBody. apply Forall_app. split.
  - repeat constructor;
      rewrite !JSFacts.has_char_app, JSFacts.String__no_nl; reflexivity.
  - apply itemLines_single, NOSE_ITEMS_single.
Qed.

Lemma snotBody_single nums :
  Forall (fun l => JS.has_char JS.NL l = false) (snotBody nums).
Proof.
  unfold snotBody. apply Forall_app. split.
  - repeat constructor;
      rewrite !JSFacts.has_char_app, JSFacts.String__no_nl; reflexivity.
  - apply itemLines_single, SNOT_ITEMS_single.
Qed.

(** A block body ends in an item line, so not in a blank one. *)
Lemma itemLines_snoc items i nums :
  items <> [] ->
  exists front x, itemLines items i nums = (front ++ [x])%list
                  /\ x <> EmptyString.
Proof.
  revert i. induction items as [|t items IH]; intros i Hne; [contradiction|].
  destruct items as [|t' items].
  - exists [], ("- " ++ t ++ ": " ++ JS.tmpl_num (nth_error nums i)).
    split; [reflexivity|discriminate].
  - destruct (IH (S i)) as (front & x & E & Hx); [discriminate|].
    exists (("- " ++ t ++ ": " ++ JS.tmpl_num (nth_error nums i)) :: front), x.
    split; [|exact Hx]. change (itemLines (t :: t' :: items) i nums)
      with (("- " ++ t ++ ": " ++ JS.tmpl_num (nth_error nums i))
              :: itemLines (t' :: items) (S i) nums).
    now rewrite E.
Qed.

Lemma noseBody_snoc nums :
  exists front x, noseBody nums = (front ++ [x])%list /\ x <> EmptyString.
Proof.
  destruct (itemLines_snoc NOSE_ITEMS 0 nums) as (front & x & E & Hx);
    [discriminate|].
  unfold noseBody. rewrite E. eexists (_ :: _ :: front), x.
  split; [reflexivity|exact Hx].
Qed.

Lemma snotBody_snoc nums :
  exists front x, snotBody nums = (front ++ [x])%list /\ x <> EmptyString.
Proof.
  destruct (itemLines_snoc SNOT_ITEMS 0 nums) as (front & x & E & Hx);
    [discriminate|].
  unfold snotBody. rewrite E. eexists (_ :: front), x.
  split; [reflexivity|exact Hx].
Qed.

Lemma noseBlock_body nums :
  noseBlock (Some nums) = (noseBody nums ++ [EmptyString])%list.
Proof. reflexivity. Qed.

Lemma snotBlock_body nums :
  snotBlock (Some nums) = (snotBody nums ++ [EmptyString])%list.
Proof. reflexivity. Qed.

(** ** The header *)

Lemma eprHeader_lines dateIso timepoint blockLabel :
  eprHeader dateIso timepoint blockLabel
  = (("PROMs recorded:" :: eprMetaLine dateIso timepoint blockLabel)
       ++ [EmptyString])%list.
Proof.
  unfold eprHeader, eprMetaLine.
  destruct (eprMeta dateIso timepoint blockLabel); reflexivity.
Qed.

Lemma prefix_nil s : String.prefix EmptyString s = true.
Proof. now destruct s. Qed.

Lemma eprMetaLine_header dateIso timepoint blockLabel :
  Forall (fun l => header_line l = true)
    (eprMetaLine dateIso timepoint blockLabel).
Proof.
  unfold eprMetaLine, eprMeta.
  destruct (JS.truthy dateIso), (JS.truthy timepoint), (JS.truthy blockLabel);
    cbn [app]; constructor; try constructor;
    unfold header_line, starts_with; simpl; now rewrite prefix_nil.
Qed.

Lemma prefix_head a p c l :
  String.prefix (String a p) (String c l) = true -> c = a.
Proof.
  simpl. destruct (ascii_dec a c); [now intros _|discriminate].
Qed.

(** A header line is not blank and opens neither an instrument's block nor
    an item line. *)
Lemma header_line_kind l :
  header_line l = true ->
  l <> EmptyString
  /\ starts_with "NOSE" l = false
  /\ starts_with "SNOT-22" l = false
  /\ starts_with "- " l = false.
Proof.
  unfold header_line, starts_with. destruct l as [|c l]; [discriminate|].
  intros H. apply orb_true_iff in H as [H|H];
    [apply orb_true_iff in H as [H|H];
     [apply orb_true_iff in H as [H|H]|]|].
  - apply String.eqb_eq in H. injection H as -> _.
    repeat split; (discriminate || reflexivity).
  - apply prefix_head in H as ->. repeat split; (discriminate || reflexivity).
  - apply prefix_head in H as ->. repeat split; (discriminate || reflexivity).
  - apply prefix_head in H as ->. repeat split; (discriminate || reflexivity).
Qed.

Lemma eprMetaLine_cases dateIso timepoint blockLabel :
  eprMetaLine dateIso timepoint blockLabel = []
  \/ exists x, eprMetaLine dateIso timepoint blockLabel = [x]
               /\ header_line x = true.
Proof.
  pose proof (eprMetaLine_header dateIso timepoint blockLabel) as H.
  unfold eprMetaLine in *.
  destruct (eprMeta dateIso timepoint blockLabel); [now left|].
  right. eexists. split; [reflexivity|]. now inversion H.
Qed.

(** ** The shape of the lines *)

Lemma eprLines_shape dateIso timepoint blockLabel noseOpt snotOpt :
  eprLines dateIso timepoint blockLabel noseOpt snotOpt
  = (("PROMs recorded:" :: eprMetaLine dateIso timepoint blockLabel)
       ++ match noseOpt, snotOpt with
          | None, None => []
          | Some n, None => EmptyString :: noseBody n
          | None, Some s => EmptyString :: snotBody s
          | Some n, Some s =>
              EmptyString :: noseBody n ++ EmptyString :: snotBody s
          end)%list.
Proof.
  unfold eprLines. rewrite eprHeader_lines.
  set (head := ("PROMs recorded:" :: eprMetaLine dateIso timepoint blockLabel)).
  destruct noseOpt as [n|], snotOpt as [s|];
    rewrite ?noseBlock_body, ?snotBlock_body; simpl noseBlock; simpl snotBlock.
  - destruct (snotBody_snoc s) as (front & x & E & Hx). rewrite E.
    rewrite !app_assoc, popTrailingBlanks_blank, popTrailingBlanks_line
      by exact Hx.
    rewrite <- !app_assoc. reflexivity.
  - destruct (noseBody_snoc n) as (front & x & E & Hx). rewrite E.
    rewrite app_nil_r, !app_assoc, popTrailingBlanks_blank,
      popTrailingBlanks_line by exact Hx.
    rewrite <- !app_assoc. reflexivity.
  - destruct (snotBody_snoc s) as (front & x & E & Hx). rewrite E.
    change ([] ++ (front ++ [x]) ++ [EmptyString])%list
      with ((front ++ [x]) ++ [EmptyString])%list.
    rewrite !app_assoc, popTrailingBlanks_blank, popTrailingBlanks_line
      by exact Hx.
    rewrite <- !app_assoc. reflexivity.
  - rewrite !app_nil_r, popTrailingBlanks_blank. subst head.
    destruct (eprMetaLine_cases dateIso timepoint blockLabel)
      as [->|(x & -> & Hx)].
    + reflexivity.
    + apply (popTrailingBlanks_line ["PROMs recorded:"]).
      now apply header_line_kind.
Qed.

(** A property of every line: it is enough to check the header lines, the
    blank separator and the bodies of the instruments that are present. *)
Lemma eprLines_Forall (P : string -> Prop)
  dateIso timepoint blockLabel noseOpt snotOpt :
  (forall l, header_line l = true -> P l) ->
  (is_some noseOpt || is_some snotOpt = true -> P EmptyString) ->
  (forall n, noseOpt = Some n -> Forall P (noseBody n)) ->
  (forall s, snotOpt = Some s -> Forall P (snotBody s)) ->
  Forall P (eprLines dateIso timepoint blockLabel noseOpt snotOpt).
Proof.
  intros Hhead Hblank Hnose Hsnot. rewrite eprLines_shape.
  apply Forall_app. split.
  - constructor; [now apply Hhead|].
    eapply Forall_impl; [exact Hhead|apply eprMetaLine_header].
  - destruct noseOpt as [n|], snotOpt as [s|]; simpl in Hblank.
    + constructor; [auto|]. apply Forall_app. split; [auto|].
      constructor; auto.
    + constructor; auto.
    + constructor; auto.
    + constructor.
Qed.

Lemma noseBody_Forall (P : string -> Prop) nums :
  P ("NOSE raw total: " ++ JS.String_ (sum nums) ++ " / 20") ->
  P ("NOSE score (0–100): " ++ JS.String_ (sum nums * 5) ++ " / 100") ->
  (forall t v, P ("- " ++ t ++ ": " ++ JS.tmpl_num v)) ->
  Forall P (noseBody nums).
Proof.
  intros Hraw Hscaled Hitem. unfold noseBody.
  repeat (constructor; [assumption|]). now apply itemLines_Forall.
Qed.

Lemma snotBody_Forall (P : string -> Prop) nums :
  P ("SNOT-22 total: " ++ JS.String_ (sum nums) ++ " / 110") ->
  (forall t v, P ("- " ++ t ++ ": " ++ JS.tmpl_num v)) ->
  Forall P (snotBody nums).
Proof.
  intros Htotal Hitem. unfold snotBody.
  constructor; [assumption|]. now apply itemLines_Forall.
Qed.

(** ** Counting item lines *)

Lemma count_item_lines_app l1 l2 :
  count_item_lines (l1 ++ l2) = (count_item_lines l1 + count_item_lines l2)%nat.
Proof. unfold count_item_lines. now rewrite filter_app, length_app. Qed.

Lemma count_item_lines_none lines :
  Forall (fun l => starts_with "- " l = false) lines ->
  count_item_lines lines = 0%nat.
Proof.
  unfold count_item_lines. induction 1 as [|l lines Hl _ IH]; simpl;
    [reflexivity|now rewrite Hl].
Qed.

Lemma count_item_lines_all lines :
  Forall (fun l => starts_with "- " l = true) lines ->
  count_item_lines lines = List.length lines.
Proof.
  unfold count_item_lines. induction 1 as [|l lines Hl _ IH]; simpl;
    [reflexivity|rewrite Hl; simpl; now rewrite IH].
Qed.

Lemma count_item_lines_itemLines items i nums :
  count_item_lines (itemLines items i nums) = List.length items.
Proof.
  rewrite count_item_lines_all, itemLines_length; [reflexivity|].
  apply itemLines_Forall. intros t v. unfold starts_with. simpl.
  apply prefix_nil.
Qed.

Lemma count_item_lines_head dateIso timepoint blockLabel :
  count_item_lines
    ("PROMs recorded:" :: eprMetaLine dateIso timepoint blockLabel) = 0%nat.
Proof.
  apply count_item_lines_none. constructor; [reflexivity|].
  eapply Forall_impl; [|apply eprMetaLine_header].
  intros l Hl. now apply header_line_kind in Hl.
Qed.

Lemma count_item_lines_noseBody nums : count_item_lines (noseBody nums) = 5%nat.
Proof.
  unfold noseBody. rewrite count_item_lines_app, count_item_lines_itemLines.
  reflexivity.
Qed.

Lemma count_item_lines_snotBody nums : count_item_lines (snotBody nums) = 22%nat.
Proof.
  unfold snotBody. rewrite count_item_lines_app, count_item_lines_itemLines.
  reflexivity.
Qed.

Lemma count_item_lines_eprLines dateIso timepoint blockLabel noseOpt snotOpt :
  count_item_lines (eprLines dateIso timepoint blockLabel noseOpt snotOpt)
  = ((if is_some noseOpt then 5 else 0) + (if is_some snotOpt then 22 else 0))%nat.
Proof.
  rewrite eprLines_shape, count_item_lines_app, count_item_lines_head.
  destruct noseOpt as [n|], snotOpt as [s|]; simpl is_some; cbv iota.
  - change (EmptyString :: noseBody n ++ EmptyString :: snotBody s)%list
      with ([EmptyString] ++ noseBody n ++ [EmptyString] ++ snotBody s)%list.
    rewrite !count_item_lines_app, count_item_lines_noseBody,
      count_item_lines_snotBody. reflexivity.
  - change (EmptyString :: noseBody n)%list
      with ([EmptyString] ++ noseBody n)%list.
    rewrite count_item_lines_app, count_item_lines_noseBody. reflexivity.
  - change (EmptyString :: snotBody s)%list
      with ([EmptyString] ++ snotBody s)%list.
    rewrite count_item_lines_app, count_item_lines_snotBody. reflexivity.
  - reflexivity.
Qed.

(** ** From the lines to the text *)

Lemma concat_split_single sep lines :
  Forall (fun l => JS.has_char sep l = false) lines ->
  List.concat (map (JS.split sep) lines) = lines.
Proof.
  induction 1 as [|l lines Hl _ IH]; simpl; [reflexivity|].
  now rewrite (JSFacts.split_no_sep _ _ Hl), IH.
Qed.

Lemma eprLines_not_nil dateIso timepoint blockLabel noseOpt snotOpt :
  eprLines dateIso timepoint blockLabel noseOpt snotOpt <> [].
Proof. rewrite eprLines_shape. discriminate. Qed.

(** The lines of the text are the pieces of the joined lines. *)
Lemma buildEprText_split dateIso timepoint blockLabel noseOpt snotOpt :
  JS.split JS.NL (buildEprText dateIso timepoint blockLabel noseOpt snotOpt)
  = List.concat
      (map (JS.split JS.NL)
         (eprLines dateIso timepoint blockLabel noseOpt snotOpt)).
Proof.
  unfold buildEprText. apply JSFacts.split_join, eprLines_not_nil.
Qed.

Lemma buildEprText_nose_lines dateIso timepoint blockLabel nums snotOpt :
  exists pre post,
    JS.split JS.NL
      (buildEprText dateIso timepoint blockLabel (Some nums) snotOpt)
    = (pre ++ noseBody nums ++ post)%list.
Proof.
  rewrite buildEprText_split, eprLines_shape.
  set (head := ("PROMs recorded:" :: eprMetaLine dateIso timepoint blockLabel)).
  exists (List.concat (map (JS.split JS.NL) (head ++ [EmptyString]))).
  destruct snotOpt as [s|].
  - exists (List.concat (map (JS.split JS.NL) (EmptyString :: snotBody s))).
    change (head ++ EmptyString :: noseBody nums ++ EmptyString :: snotBody s)%list
      with (head ++ [EmptyString] ++ noseBody nums
              ++ (EmptyString :: snotBody s))%list.
    rewrite (app_assoc head [EmptyString]).
    rewrite !map_app, !concat_app.
    now rewrite (concat_split_single _ _ (noseBody_single nums)).
  - exists [].
    change (head ++ EmptyString :: noseBody nums)%list
      with (head ++ [EmptyString] ++ noseBody nums)%list.
    rewrite (app_assoc head [EmptyString]), !map_app, !concat_app.
    rewrite (concat_split_single _ _ (noseBody_single nums)).
    now rewrite app_nil_r.
Qed.

Lemma buildEprText_snot_lines dateIso timepoint blockLabel noseOpt nums :
  exists pre,
    JS.split JS.NL
      (buildEprText dateIso timepoint blockLabel noseOpt (Some nums))
    = (pre ++ snotBody nums)%list.
Proof.
  rewrite buildEprText_split, eprLines_shape.
  set (head := ("PROMs recorded:" :: eprMetaLine dateIso timepoint blockLabel)).
  destruct noseOpt as [n|].
  - exists (List.concat
              (map (JS.split JS.NL)
                 (head ++ EmptyString :: noseBody n ++ [EmptyString]))).
    replace (head ++ EmptyString :: noseBody n ++ EmptyString :: snotBody nums)%list
      with ((head ++ EmptyString :: noseBody n ++ [EmptyString])
              ++ snotBody nums)%list
      by (rewrite <- ?app_assoc; simpl; now rewrite <- ?app_assoc).
    rewrite map_app, concat_app.
    now rewrite (concat_split_single _ _ (snotBody_single nums)).
  - exists (List.concat (map (JS.split JS.NL) (head ++ [EmptyString]))).
    change (head ++ EmptyString :: snotBody nums)%list
      with (head ++ [EmptyString] ++ snotBody nums)%list.
    rewrite (app_assoc head [EmptyString]), map_app, concat_app.
    now rewrite (concat_split_single _ _ (snotBody_single nums)).
Qed.

(** ** Metadata without newlines *)

Lemma split_pieces_keep c sep s :
  JS.has_char c s = false ->
  Forall (fun piece => JS.has_char c piece = false) (JS.split sep s).
Proof.
  induction s as [|a s IH]; simpl; intros H; [now constructor|].
  apply orb_false_iff in H as [Ha Hs]. specialize (IH Hs).
  destruct (Ascii.eqb a sep); [now constructor|].
  destruct (JS.split sep s) as [|piece pieces].
  - constructor; [simpl; now rewrite Ha|constructor].
  - inversion IH; subst. constructor; [simpl; now rewrite Ha|assumption].
Qed.

Lemma ddmmyyyy_single iso :
  JS.has_char JS.NL iso = false -> JS.has_char JS.NL (ddmmyyyy iso) = false.
Proof.
  intros H. unfold ddmmyyyy.
  destruct (JS.truthy iso); [|reflexivity]. cbn [negb].
  pose proof (split_pieces_keep JS.NL JS.HYPHEN iso H) as Hp.
  destruct (JS.split JS.HYPHEN iso) as [|y [|m [|d rest]]]; cbn [nth_error].
  - exact H.
  - destruct (JS.truthy_elt (Some y)); exact H.
  - destruct (JS.truthy_elt (Some y)), (JS.truthy_elt (Some m)); exact H.
  - destruct (JS.truthy_elt (Some y)), (JS.truthy_elt (Some m)),
      (JS.truthy_elt (Some d)); try exact H.
    cbn [negb orb JS.tmpl_str].
    inversion Hp as [|? ? Hy Hp1]; subst.
    inversion Hp1 as [|? ? Hm Hp2]; subst.
    inversion Hp2 as [|? ? Hd _]; subst.
    now rewrite !JSFacts.has_char_app, Hy, Hm, Hd.
Qed.

Lemma has_char_join c sep lines :
  JS.has_char c sep = false ->
  Forall (fun l => JS.has_char c l = false) lines ->
  JS.has_char c (JS.join sep lines) = false.
Proof.
  intros Hsep H. induction H as [|l lines Hl Hrest IH]; [reflexivity|].
  destruct lines as [|l' lines]; [exact Hl|].
  rewrite JSFacts.join_cons2, !JSFacts.has_char_app, Hl, Hsep. exact IH.
Qed.

Lemma eprMetaLine_single dateIso timepoint blockLabel :
  single_line dateIso && single_line timepoint && single_line blockLabel = true ->
  Forall (fun l => JS.has_char JS.NL l = false)
    (eprMetaLine dateIso timepoint blockLabel).
Proof.
  unfold single_line. intros H.
  apply andb_true_iff in H as [H Hb]. apply andb_true_iff in H as [Hd Ht].
  apply negb_true_iff in Hd, Ht, Hb.
  assert (Hmeta : Forall (fun l => JS.has_char JS.NL l = false)
                    (eprMeta dateIso timepoint blockLabel)).
  { unfold eprMeta. apply Forall_app. split; [|apply Forall_app; split].
    - destruct (JS.truthy dateIso); constructor; [|constructor].
      rewrite JSFacts.has_char_app. now rewrite (ddmmyyyy_single _ Hd).
    - destruct (JS.truthy timepoint); constructor; [|constructor].
      rewrite JSFacts.has_char_app. now rewrite Ht.
    - destruct (JS.truthy blockLabel); constructor; [|constructor].
      rewrite JSFacts.has_char_app. now rewrite Hb. }
  unfold eprMetaLine.
  destruct (eprMeta dateIso timepoint blockLabel) eqn:E; constructor;
    [|constructor].
  now apply has_char_join.
Qed.

(** With single-line metadata the lines of the text are the lines of the
    array. *)
Lemma buildEprText_lines dateIso timepoint blockLabel noseOpt snotOpt :
  single_line dateIso && single_line timepoint && single_line blockLabel = true ->
  JS.split JS.NL (buildEprText dateIso timepoint blockLabel noseOpt snotOpt)
  = eprLines dateIso timepoint blockLabel noseOpt snotOpt.
Proof.
  intros Hmeta. rewrite buildEprText_split. apply concat_split_single.
  rewrite eprLines_shape. apply Forall_app. split.
  - constructor; [reflexivity|now apply eprMetaLine_single].
  - destruct noseOpt as [n|], snotOpt as [s|];
      repeat first [ apply noseBody_single
                   | apply snotBody_single
                   | apply Forall_nil
                   | apply Forall_cons; [reflexivity|]
                   | apply Forall_app; split ].
Qed.

(** The last line: never blank, and free of newlines as soon as it is an
    item line or the metadata are single-line. *)
Lemma eprLines_last_line dateIso timepoint blockLabel noseOpt snotOpt :
  exists front x,
    eprLines dateIso timepoint blockLabel noseOpt snotOpt = (front ++ [x])%list
    /\ x <> EmptyString
    /\ (is_some noseOpt || is_some snotOpt
        || (single_line dateIso && single_line timepoint
            && single_line blockLabel) = true ->
        JS.has_char JS.NL x = false).
Proof.
  rewrite eprLines_shape.
  set (head := ("PROMs recorded:" :: eprMetaLine dateIso timepoint blockLabel)).
  assert (Hsnot : forall s pre,
    exists front x, (pre ++ snotBody s)%list = (front ++ [x])%list
                    /\ x <> EmptyString /\ JS.has_char JS.NL x = false).
  { intros s pre. pose proof (snotBody_single s) as Hs.
    destruct (snotBody_snoc s) as (front & x & E & Hx). rewrite E in *.
    apply Forall_app in Hs as [_ Hs]. inversion Hs; subst.
    exists (pre ++ front)%list, x. now rewrite app_assoc. }
  assert (Hnose : forall n pre,
    exists front x, (pre ++ noseBody n)%list = (front ++ [x])%list
                    /\ x <> EmptyString /\ JS.has_char JS.NL x = false).
  { intros n pre. pose proof (noseBody_single n) as Hn.
    destruct (noseBody_snoc n) as (front & x & E & Hx). rewrite E in *.
    apply Forall_app in Hn as [_ Hn]. inversion Hn; subst.
    exists (pre ++ front)%list, x. now rewrite app_assoc. }
  destruct noseOpt as [n|], snotOpt as [s|].
  - destruct (Hsnot s (head ++ EmptyString :: noseBody n ++ [EmptyString])%list)
      as (front & x & E & Hx & Hnl).
    exists front, x. split; [|now split].
    rewrite <- E, <- ?app_assoc. simpl. now rewrite <- ?app_assoc.
  - destruct (Hnose n (head ++ [EmptyString])%list) as (front & x & E & Hx & Hnl).
    exists front, x. split; [|now split]. now rewrite <- E, <- app_assoc.
  - destruct (Hsnot s (head ++ [EmptyString])%list) as (front & x & E & Hx & Hnl).
    exists front, x. split; [|now split]. now rewrite <- E, <- app_assoc.
  - rewrite app_nil_r. subst head. simpl is_some. cbn [orb].
    pose proof (eprMetaLine_single dateIso timepoint blockLabel) as Hsingle.
    destruct (eprMetaLine_cases dateIso timepoint blockLabel)
      as [E|(x & E & Hx)]; rewrite E in *.
    + exists [], "PROMs recorded:". repeat split; discriminate || reflexivity.
    + exists ["PROMs recorded:"], x. split; [reflexivity|].
      split; [now apply header_line_kind|].
      intros H. specialize (Hsingle H). now inversion Hsingle.
Qed.

Lemma header_line_other c p l :
  header_line l = true ->
  c <> "P"%char -> c <> "D"%char -> c <> "T"%char ->
  starts_with (String c p) l = false.
Proof.
  unfold header_line, starts_with. destruct l as [|a l]; [discriminate|].
  intros H HP HD HT. simpl. destruct (ascii_dec c a) as [->|]; [|reflexivity].
  apply orb_true_iff in H as [H|H];
    [apply orb_true_iff in H as [H|H];
     [apply orb_true_iff in H as [H|H]|]|].
  - apply String.eqb_eq in H. injection H as -> _. contradiction.
  - apply prefix_head in H. contradiction.
  - apply prefix_head in H. contradiction.
  - apply prefix_head in H. contradiction.
Qed.

(** C5.  A narrative built with NOSE scores holds the line "NOSE raw total:
    <raw> / 20", then "NOSE score (0–100): <scaled> / 100", with raw the
    sum of the 5 values and scaled = raw * 5, then one line
    "- <label>: <value>" per item in NOSE item order; scores (1,1,1,1,1)
    give "NOSE raw total: 5 / 20" and "NOSE score (0–100): 25 / 100".
    The SNOT-22 block is its total line "SNOT-22 total: <raw> / 110"
    followed by its item lines and nothing else: there is no scaled
    SNOT-22 line. *)
Theorem buildEprText_nose_block dateIso timepoint blockLabel :
  (forall noseNums snotOpt,
     List.length noseNums = 5%nat ->
     let raw := fold_right Z.add 0 noseNums in
     let scaled := raw * 5 in
     exists pre post,
       JS.split JS.NL
         (buildEprText dateIso timepoint blockLabel (Some noseNums) snotOpt)
       = (pre
            ++ ["NOSE raw total: " ++ JS.String_ raw ++ " / 20";
                "NOSE score (0–100): " ++ JS.String_ scaled ++ " / 100"]%string
            ++ item_lines_of NOSE_ITEMS noseNums
            ++ post)%list)
  /\ (forall snotOpt,
       exists pre post,
         JS.split JS.NL
           (buildEprText dateIso timepoint blockLabel
              (Some [1; 1; 1; 1; 1]) snotOpt)
         = (pre
              ++ ["NOSE raw total: 5 / 20"; "NOSE score (0–100): 25 / 100"]
              ++ post)%list)
  /\ (forall noseOpt snotNums,
       List.length snotNums = 22%nat ->
       exists pre,
         JS.split JS.NL
           (buildEprText dateIso timepoint blockLabel noseOpt (Some snotNums))
         = (pre
              ++ ["SNOT-22 total: "
                    ++ JS.String_ (fold_right Z.add 0 snotNums) ++ " / 110"]%string
              ++ item_lines_of SNOT_ITEMS snotNums)%list)
  /\ (forall noseOpt snotOpt,
       Forall (fun l => starts_with "SNOT-22 score" l = false)
         (eprLines dateIso timepoint blockLabel noseOpt snotOpt)).
Proof.
  split; [|split; [|split]].
  - intros noseNums snotOpt Hlen raw scaled. subst raw scaled.
    destruct (buildEprText_nose_lines dateIso timepoint blockLabel
                noseNums snotOpt) as (pre & post & E).
    exists pre, post. rewrite E. unfold noseBody.
    rewrite itemLines_item_lines_of by exact Hlen.
    rewrite <- sum_fold_right, <- !app_assoc. reflexivity.
  - intros snotOpt.
    destruct (buildEprText_nose_lines dateIso timepoint blockLabel
                [1; 1; 1; 1; 1] snotOpt) as (pre & post & E).
    exists pre. eexists. rewrite E. reflexivity.
  - intros noseOpt snotNums Hlen.
    destruct (buildEprText_snot_lines dateIso timepoint blockLabel
                noseOpt snotNums) as (pre & E).
    exists pre. rewrite E. unfold snotBody.
    rewrite itemLines_item_lines_of by exact Hlen.
    now rewrite <- sum_fold_right.
  - intros noseOpt snotOpt. apply eprLines_Forall.
    + intros l Hl. apply header_line_other; [exact Hl|discriminate..].
    + reflexivity.
    + intros n _. apply noseBody_Forall; reflexivity.
    + intros s _. apply snotBody_Forall; reflexivity.
Qed.

Lemma buildEprText_nose_block_witness :
  List.length [2; 0; 4; 1; 3] = 5%nat
  /\ exists pre post,
       JS.split JS.NL
         (buildEprText "2024-03-05" "Pre-op" "Baseline"
            (Some [2; 0; 4; 1; 3]) None)
       = (pre
            ++ ["NOSE raw total: 10 / 20";
                "NOSE score (0–100): 50 / 100";
                "- Nasal congestion: 2";
                "- Nasal obstruction: 0";
                "- Trouble breathing through nose: 4";
                "- Trouble sleeping: 1";
                "- Unable to get enough air through nose during exercise: 3"]
            ++ post)%list.
Proof.
  split; [reflexivity|].
  exact (proj1 (buildEprText_nose_block "2024-03-05" "Pre-op" "Baseline")
           [2; 0; 4; 1; 3] None eq_refl).
Defined.

Lemma append_empty_inv (a b : string) :
  a ++ b = EmptyString -> b = EmptyString.
Proof. destruct a; [now simpl|discriminate]. Qed.

(** C6.  When an instrument's scores are omitted, the lines the function
    joins hold no line of its block (no line opening with the instrument's
    name, no item line of its own, so no zeros in their place), and these
    lines never end with a blank line: the trailing blank lines are
    trimmed before joining.  The returned text has exactly these lines when
    the date, the timepoint and the dataset label hold no newline, and it
    does not end with a blank line when an instrument's scores are present
    or these three fields hold no newline. *)
Theorem buildEprText_omits_and_trims
  dateIso timepoint blockLabel noseOpt snotOpt :
  let lines := eprLines dateIso timepoint blockLabel noseOpt snotOpt in
  let text := buildEprText dateIso timepoint blockLabel noseOpt snotOpt in
  text = JS.join (JS.str JS.NL) lines
  /\ (noseOpt = None ->
      Forall (fun l => starts_with "NOSE" l = false) lines
      /\ count_item_lines lines = (if is_some snotOpt then 22 else 0)%nat)
  /\ (snotOpt = None ->
      Forall (fun l => starts_with "SNOT-22" l = false) lines
      /\ count_item_lines lines = (if is_some noseOpt then 5 else 0)%nat)
  /\ (noseOpt = None -> snotOpt = None ->
      lines = "PROMs recorded:" :: eprMetaLine dateIso timepoint blockLabel)
  /\ (exists front x, lines = (front ++ [x])%list /\ x <> EmptyString)
  /\ popTrailingBlanks lines = lines
  /\ (is_some noseOpt || is_some snotOpt
      || (single_line dateIso && single_line timepoint
          && single_line blockLabel) = true ->
      text <> EmptyString /\ JS.last_char text <> Some JS.NL)
  /\ (single_line dateIso && single_line timepoint
      && single_line blockLabel = true ->
      JS.split JS.NL text = lines).
Proof.
  intros lines text.
  destruct (eprLines_last_line dateIso timepoint blockLabel noseOpt snotOpt)
    as (front & x & E & Hx & Hnl). fold lines in E.
  split; [reflexivity|]. split; [|split; [|split; [|split; [|split; [|split]]]]].
  - intros ->. split.
    + apply eprLines_Forall.
      * intros l Hl. now apply header_line_kind in Hl.
      * reflexivity.
      * discriminate.
      * intros s _. apply snotBody_Forall; reflexivity.
    + subst lines. rewrite count_item_lines_eprLines. reflexivity.
  - intros ->. split.
    + apply eprLines_Forall.
      * intros l Hl. now apply header_line_kind in Hl.
      * reflexivity.
      * intros n _. apply noseBody_Forall; reflexivity.
      * discriminate.
    + subst lines. rewrite count_item_lines_eprLines.
      destruct (is_some noseOpt); reflexivity.
  - intros -> ->. subst lines. rewrite eprLines_shape. apply app_nil_r.
  - now exists front, x.
  - rewrite E. now apply popTrailingBlanks_line.
  - intros H. specialize (Hnl H).
    assert (Etext : exists pre, text = pre ++ x).
    { subst text. unfold buildEprText. fold lines. rewrite E.
      apply JSFacts.join_snoc. }
    destruct Etext as (pre & ->). split.
    + intros Hempty. now apply append_empty_inv in Hempty.
    + rewrite JSFacts.last_char_app by exact Hx.
      intros Hlast. apply JSFacts.last_char_has in Hlast. congruence.
  - apply buildEprText_lines.
Qed.

Lemma buildEprText_omits_and_trims_witness :
  (None : option (list Z)) = None
  /\ single_line "2024-03-05" && single_line "Pre-op" && single_line "" = true
  /\ Forall (fun l => starts_with "NOSE" l = false)
       (JS.split JS.NL
          (buildEprText "2024-03-05" "Pre-op" "" None (Some (repeat 2 22))))
  /\ JS.last_char
       (buildEprText "2024-03-05" "Pre-op" "" None (Some (repeat 2 22)))
     <> Some JS.NL.
Proof.
  pose proof (buildEprText_omits_and_trims "2024-03-05" "Pre-op" ""
                None (Some (repeat 2 22))) as H.
  cbv zeta in H.
  destruct H as (_ & Hnose & _ & _ & _ & _ & Hlast & Hsplit).
  split; [reflexivity|]. split; [reflexivity|]. split.
  - rewrite (Hsplit eq_refl). exact (proj1 (Hnose eq_refl)).
  - exact (proj2 (Hlast eq_refl)).
Defined.

(** The fields of the heading are joined as they come.  With no scores and
    a dataset label that is a newline, the text is the title, a newline,
    ["Dataset: "] and the label's newline. *)
Lemma buildEprText_newline_label :
  buildEprText "" "" (JS.str JS.NL) None None
  = "PROMs recorded:" ++ JS.str JS.NL ++ "Dataset: " ++ JS.str JS.NL
  /\ eprLines "" "" (JS.str JS.NL) None None
     = ["PROMs recorded:"; "Dataset: " ++ JS.str JS.NL].
Proof. split; reflexivity. Qed.

(** C6, read on the returned text of every call, fails there: the text ends
    with a newline, that is with a blank line, although the last of the
    joined lines is not blank. *)
Lemma narrative_text_as_stated_fails_on_newline_label :
  ~ narrative_text_as_stated "" "" (JS.str JS.NL) None None.
Proof.
  intros (_ & _ & Hlast). apply Hlast. reflexivity.
Qed.

End Narrative.

(** * Dates *)

Section Dates.

Implicit Types (iso y m d : string).

Lemma truthy_not_empty s : JS.truthy s = true <-> s <> EmptyString.
Proof. destruct s; simpl; split; congruence. Qed.

Lemma ddmmyyyy_components iso y m d :
  date_components iso = Some (y, m, d) ->
  ddmmyyyy iso = d ++ "/" ++ m ++ "/" ++ y.
Proof.
  unfold date_components, ddmmyyyy.
  destruct iso as [|c iso]; [discriminate|]. cbn [JS.truthy negb].
  destruct (JS.split JS.HYPHEN (String c iso)) as [|y' [|m' [|d' rest]]];
    try discriminate.
  cbn [nth_error JS.truthy_elt].
  destruct (JS.truthy y'), (JS.truthy m'), (JS.truthy d'); try discriminate.
  now intros [= -> -> ->].
Qed.

Lemma ddmmyyyy_no_components iso :
  date_components iso = None -> ddmmyyyy iso = iso.
Proof.
  unfold date_components, ddmmyyyy.
  destruct iso as [|c iso]; [reflexivity|]. cbn [JS.truthy negb].
  destruct (JS.split JS.HYPHEN (String c iso)) as [|y' [|m' [|d' rest]]];
    cbn [nth_error JS.truthy_elt]; try reflexivity.
  - now destruct (JS.truthy y').
  - now destruct (JS.truthy y'), (JS.truthy m').
  - now destruct (JS.truthy y'), (JS.truthy m'), (JS.truthy d').
Qed.

Lemma split_iso_date y m d more :
  JS.has_char JS.HYPHEN y = false ->
  JS.has_char JS.HYPHEN m = false ->
  JS.has_char JS.HYPHEN d = false ->
  JS.split JS.HYPHEN (iso_date y m d more)
  = y :: m :: d :: match more with
                   | None => []
                   | Some rest => JS.split JS.HYPHEN rest
                   end.
Proof.
  intros Hy Hm Hd. unfold iso_date.
  destruct more as [rest|]; cbn [append];
    change JS.HYPHEN with "-"%char in *;
    rewrite !JSFacts.split_app_sep,
      (JSFacts.split_no_sep _ _ Hy), (JSFacts.split_no_sep _ _ Hm),
      (JSFacts.split_no_sep _ _ Hd); reflexivity.
Qed.

(** The dates with three usable components are exactly those written
    year-month-day, possibly followed by further pieces. *)
Lemma date_components_iso iso y m d :
  date_components iso = Some (y, m, d)
  <-> date_piece y /\ date_piece m /\ date_piece d
      /\ exists more, iso = iso_date y m d more.
Proof.
  unfold date_piece. split.
  - unfold date_components. intros H.
    pose proof (JSFacts.split_pieces_no_sep JS.HYPHEN iso) as Hp.
    pose proof (JSFacts.join_split JS.HYPHEN iso) as Hj.
    destruct (JS.split JS.HYPHEN iso) as [|y' [|m' [|d' rest]]];
      try discriminate.
    destruct (JS.truthy y') eqn:Ty, (JS.truthy m') eqn:Tm,
      (JS.truthy d') eqn:Td; try discriminate.
    injection H as -> -> ->. rewrite <- Hj. clear Hj.
    inversion Hp as [|? ? Hy Hp1]; subst.
    inversion Hp1 as [|? ? Hm Hp2]; subst.
    inversion Hp2 as [|? ? Hd _]; subst.
    apply truthy_not_empty in Ty, Tm, Td.
    repeat split; try assumption.
    destruct rest as [|r rest].
    + now exists None.
    + now exists (Some (JS.join (JS.str JS.HYPHEN) (r :: rest))).
  - intros ((Hy & Hyh) & (Hm & Hmh) & (Hd & Hdh) & more & ->).
    unfold date_components. rewrite split_iso_date by assumption.
    apply truthy_not_empty in Hy, Hm, Hd. now rewrite Hy, Hm, Hd.
Qed.

Lemma ddmmyyyy_iso_date y m d more :
  date_piece y -> date_piece m -> date_piece d ->
  ddmmyyyy (iso_date y m d more) = d ++ "/" ++ m ++ "/" ++ y.
Proof.
  intros Hy Hm Hd. apply ddmmyyyy_components, date_components_iso.
  repeat split; try (apply Hy || apply Hm || apply Hd). now exists more.
Qed.

(** C10.  [ddmmyyyy] is total and has exactly three behaviours: the empty
    string for the empty input; the input unchanged whenever splitting it on
    "-" does not give three first components that are all non-empty; and
    otherwise "<d>/<m>/<y>" from the first three components, which is the
    case exactly for the inputs written y-m-d, with or without further
    pieces. *)
Theorem ddmmyyyy_cases :
  ddmmyyyy EmptyString = EmptyString
  /\ (forall iso, date_components iso = None -> ddmmyyyy iso = iso)
  /\ (forall iso y m d,
        date_components iso = Some (y, m, d) ->
        ddmmyyyy iso = d ++ "/" ++ m ++ "/" ++ y)
  /\ (forall iso y m d,
        date_components iso = Some (y, m, d)
        <-> nth_error (JS.split JS.HYPHEN iso) 0 = Some y
            /\ nth_error (JS.split JS.HYPHEN iso) 1 = Some m
            /\ nth_error (JS.split JS.HYPHEN iso) 2 = Some d
            /\ y <> EmptyString /\ m <> EmptyString /\ d <> EmptyString)
  /\ (forall y m d more,
        date_piece y -> date_piece m -> date_piece d ->
        ddmmyyyy (iso_date y m d more) = d ++ "/" ++ m ++ "/" ++ y)
  /\ (forall iso,
        ddmmyyyy iso = iso
        \/ exists y m d more,
             iso = iso_date y m d more
             /\ ddmmyyyy iso = d ++ "/" ++ m ++ "/" ++ y).
Proof.
  split; [reflexivity|].
  split; [exact ddmmyyyy_no_components|].
  split; [exact ddmmyyyy_components|].
  split; [|split].
  - intros iso y m d. unfold date_components.
    destruct (JS.split JS.HYPHEN iso) as [|y' [|m' [|d' rest]]];
      cbn [nth_error]; try (split; [discriminate|intros (? & ? & ? & _);
                                                   discriminate]).
    rewrite <- !truthy_not_empty.
    destruct (JS.truthy y') eqn:Ty, (JS.truthy m') eqn:Tm,
      (JS.truthy d') eqn:Td; cbn [andb];
      (split;
       [ intros [= <- <- <-] || discriminate; auto 10
       | intros ([= <-] & [= <-] & [= <-] & ? & ? & ?); congruence ]).
  - intros y m d more Hy Hm Hd. now apply ddmmyyyy_iso_date.
  - intros iso. destruct (date_components iso) as [[[y m] d]|] eqn:E.
    + right. pose proof (ddmmyyyy_components _ _ _ _ E) as Hdate.
      apply date_components_iso in E as (_ & _ & _ & more & ->).
      now exists y, m, d, more.
    + left. now apply ddmmyyyy_no_components.
Qed.

End Dates.

Lemma ddmmyyyy_cases_witness :
  date_components "2024-03" = None
  /\ ddmmyyyy "2024-03" = "2024-03"
  /\ date_components "2024-03-05" = Some ("2024", "03", "05")
  /\ ddmmyyyy "2024-03-05" = "05/03/2024".
Proof.
  destruct ddmmyyyy_cases as (_ & Hnone & Hsome & _).
  split; [reflexivity|]. split; [apply Hnone; reflexivity|].
  split; [reflexivity|]. apply (Hsome "2024-03-05" "2024" "03" "05").
  reflexivity.
Defined.

(** * The patient message *)

Section PatientMessage.

Implicit Types (config : Config) (dateIso timepoint : string).
Implicit Types (noseScores snotScores : Scores) (msg : Message).

(** The subject the message is given. *)
Lemma subject_parts dateIso timepoint :
  JS.join " – "
    (["NASALPROM PROMs"]
       ++ (if JS.truthy dateIso then [ddmmyyyy dateIso] else [])
       ++ (if JS.truthy timepoint then [timepoint] else []))%list
  = "NASALPROM PROMs"
      ++ (if JS.truthy dateIso then " – " ++ ddmmyyyy dateIso else "")
      ++ (if JS.truthy timepoint then " – " ++ timepoint else "").
Proof.
  destruct (JS.truthy dateIso), (JS.truthy timepoint); cbn [app];
    unfold JS.join; cbn [String.concat]; rewrite ?JSFacts.append_assoc;
    cbn [append]; rewrite ?JSFacts.append_empty_r; reflexivity.
Qed.

(** A composed message: the smart selection succeeds on the same answers,
    and the subject and body are built from its mode, row and numbers. *)
Lemma buildPatientMessageOrThrow_composed
  config dateIso timepoint noseScores snotScores msg :
  buildPatientMessageOrThrow config dateIso timepoint noseScores snotScores
  = Return msg ->
  exists r,
    buildSmartTSV noseScores snotScores = Return r
    /\ subject msg
       = JS.join " – "
           (["NASALPROM PROMs"]
              ++ (if JS.truthy dateIso then [ddmmyyyy dateIso] else [])
              ++ (if JS.truthy timepoint then [timepoint] else []))%list
    /\ body msg
       = let readable :=
           buildEprText dateIso timepoint "" (noseNums r) (snotNums r) in
         if includeTsvLine config
         then readable ++ JS.str JS.NL ++ JS.str JS.NL
                ++ tsv_label (mode r) ++ JS.str JS.NL ++ tsv r ++ JS.str JS.NL
         else readable ++ JS.str JS.NL.
Proof.
  unfold buildPatientMessageOrThrow, buildSmartTSV, assertNotPartialOrThrow.
  destruct (completionState noseScores), (completionState snotScores);
    cbn [CompletionState_eqb bind andb negb]; try discriminate;
    destruct (includeTsvLine config); cbn [negb];
    intros [= <-]; eexists; (split; [reflexivity|]);
    cbn [subject body mode tsv noseNums snotNums tsvBits tsv_label];
    (split; [reflexivity|]);
    unfold JS.join; cbn [String.concat];
    rewrite ?JSFacts.append_assoc; reflexivity.
Qed.

(** C7.  The subject of a composed message is "NASALPROM PROMs" joined
    with " – " to the date as [ddmmyyyy] renders it, DD/MM/YYYY for a date
    written YYYY-MM-DD, when a date is present, and to the timepoint when
    present; an absent (empty) field is skipped.  For the date "2024-03-05"
    and the timepoint "Pre-op" it is
    "NASALPROM PROMs – 05/03/2024 – Pre-op". *)
Theorem patient_message_subject
  config dateIso timepoint noseScores snotScores msg :
  buildPatientMessageOrThrow config dateIso timepoint noseScores snotScores
  = Return msg ->
  subject msg
  = JS.join " – "
      (["NASALPROM PROMs"]
         ++ (if JS.truthy dateIso then [ddmmyyyy dateIso] else [])
         ++ (if JS.truthy timepoint then [timepoint] else []))%list
  /\ (dateIso = EmptyString -> timepoint = EmptyString ->
      subject msg = "NASALPROM PROMs")
  /\ (dateIso <> EmptyString -> timepoint = EmptyString ->
      subject msg = "NASALPROM PROMs – " ++ ddmmyyyy dateIso)
  /\ (dateIso = EmptyString -> timepoint <> EmptyString ->
      subject msg = "NASALPROM PROMs – " ++ timepoint)
  /\ (dateIso <> EmptyString -> timepoint <> EmptyString ->
      subject msg
      = "NASALPROM PROMs – " ++ ddmmyyyy dateIso ++ " – " ++ timepoint)
  /\ (forall y m d,
        date_piece y -> date_piece m -> date_piece d ->
        dateIso = iso_date y m d None ->
        ddmmyyyy dateIso = d ++ "/" ++ m ++ "/" ++ y)
  /\ (dateIso = "2024-03-05" -> timepoint = "Pre-op" ->
      subject msg = "NASALPROM PROMs – 05/03/2024 – Pre-op").
Proof.
  intros H.
  destruct (buildPatientMessageOrThrow_composed _ _ _ _ _ _ H)
    as (r & _ & Hs & _).
  split; [exact Hs|]. rewrite Hs, subject_parts. repeat split.
  - now intros -> ->.
  - intros Hd ->. apply truthy_not_empty in Hd. rewrite Hd. simpl.
    now rewrite JSFacts.append_empty_r.
  - intros -> Ht. apply truthy_not_empty in Ht. now rewrite Ht.
  - intros Hd Ht. apply truthy_not_empty in Hd, Ht. now rewrite Hd, Ht.
  - intros y m d Hy Hm Hd ->. now apply ddmmyyyy_iso_date.
  - now intros -> ->.
Qed.

Lemma patient_message_subject_witness :
  buildPatientMessageOrThrow (mkConfig (Some false)) "2024-03-05" "Pre-op"
    [Some 1; Some 2; Some 3; Some 4; Some 0] (repeat None 22)
  = Return (mkMessage "NASALPROM PROMs – 05/03/2024 – Pre-op"
              (buildEprText "2024-03-05" "Pre-op" ""
                 (Some [1; 2; 3; 4; 0]) None ++ JS.str JS.NL))
  /\ subject (mkMessage "NASALPROM PROMs – 05/03/2024 – Pre-op"
                (buildEprText "2024-03-05" "Pre-op" ""
                   (Some [1; 2; 3; 4; 0]) None ++ JS.str JS.NL))
     = "NASALPROM PROMs – 05/03/2024 – Pre-op".
Proof.
  split; [reflexivity|].
  refine (proj2 (proj2 (proj2 (proj2 (proj2 (proj2
            (patient_message_subject (mkConfig (Some false))
               "2024-03-05" "Pre-op"
               [Some 1; Some 2; Some 3; Some 4; Some 0] (repeat None 22)
               _ eq_refl)))))) eq_refl eq_refl).
Defined.

(** What a successful smart selection returns, by mode. *)
Lemma buildSmartTSV_row noseScores snotScores r :
  buildSmartTSV noseScores snotScores = Return r ->
  match mode r with
  | full =>
      completionState noseScores = complete
      /\ completionState snotScores = complete
      /\ tsv r = buildFullBlockTSV (scoresToNumbers noseScores)
                   (scoresToNumbers snotScores)
      /\ noseNums r = Some (scoresToNumbers noseScores)
      /\ snotNums r = Some (scoresToNumbers snotScores)
  | nose =>
      completionState noseScores = complete
      /\ completionState snotScores = empty
      /\ tsv r = buildNoseOnlyTSV (scoresToNumbers noseScores)
      /\ noseNums r = Some (scoresToNumbers noseScores)
      /\ snotNums r = None
  | snot =>
      completionState noseScores = empty
      /\ completionState snotScores = complete
      /\ tsv r = buildSnotOnlyTSV (scoresToNumbers snotScores)
      /\ noseNums r = None
      /\ snotNums r = Some (scoresToNumbers snotScores)
  end.
Proof.
  unfold buildSmartTSV, assertNotPartialOrThrow.
  destruct (completionState noseScores), (completionState snotScores);
    cbn [CompletionState_eqb bind andb]; try discriminate;
    intros [= <-]; cbn [mode tsv noseNums snotNums]; auto.
Qed.

(** C8.  The body of a composed message.  With the include-TSV flag set,
    which is the default (the configuration leaves [includeTsvLine] out, or
    gives anything but [false]), it is the narrative text, a blank line, the
    label of the mode ("FULL TSV:", "NOSE TSV only:" or "SNOT-22 TSV
    only:"), the TSV row of that mode on the next line, and a final
    newline.  With the flag off, that is with [includeTsvLine: false]
    configured, it is the narrative text and a final newline, without a
    tabular block. *)
Theorem patient_message_body
  config dateIso timepoint noseScores snotScores msg :
  buildPatientMessageOrThrow config dateIso timepoint noseScores snotScores
  = Return msg ->
  exists r,
    buildSmartTSV noseScores snotScores = Return r
    /\ let readable :=
         buildEprText dateIso timepoint "" (noseNums r) (snotNums r) in
       (includeTsvLine config = true ->
        body msg
        = readable ++ JS.str JS.NL ++ JS.str JS.NL
            ++ match mode r with
               | full => "FULL TSV:"
               | nose => "NOSE TSV only:"
               | snot => "SNOT-22 TSV only:"
               end
            ++ JS.str JS.NL ++ tsv r ++ JS.str JS.NL)
       /\ (includeTsvLine config = false -> body msg = readable ++ JS.str JS.NL)
       /\ tsv r
          = match mode r with
            | full => buildFullBlockTSV (scoresToNumbers noseScores)
                        (scoresToNumbers snotScores)
            | nose => buildNoseOnlyTSV (scoresToNumbers noseScores)
            | snot => buildSnotOnlyTSV (scoresToNumbers snotScores)
            end
       /\ noseNums r
          = match mode r with
            | snot => None
            | _ => Some (scoresToNumbers noseScores)
            end
       /\ snotNums r
          = match mode r with
            | nose => None
            | _ => Some (scoresToNumbers snotScores)
            end
       /\ (cfg_includeTsvLine config = None -> includeTsvLine config = true)
       /\ (includeTsvLine config = false
           <-> cfg_includeTsvLine config = Some false)
       /\ (cfg_includeTsvLine config = Some false ->
           body msg = readable ++ JS.str JS.NL)
       /\ (cfg_includeTsvLine config <> Some false ->
           body msg
           = readable ++ JS.str JS.NL ++ JS.str JS.NL
               ++ match mode r with
                  | full => "FULL TSV:"
                  | nose => "NOSE TSV only:"
                  | snot => "SNOT-22 TSV only:"
                  end
               ++ JS.str JS.NL ++ tsv r ++ JS.str JS.NL).
Proof.
  intros H.
  destruct (buildPatientMessageOrThrow_composed _ _ _ _ _ _ H)
    as (r & Hr & _ & Hb).
  exists r. split; [exact Hr|]. cbv zeta in *.
  pose proof (buildSmartTSV_row _ _ _ Hr) as Hrow.
  assert (Hflag : includeTsvLine config = false
                  <-> cfg_includeTsvLine config = Some false).
  { unfold includeTsvLine.
    destruct (cfg_includeTsvLine config) as [[|]|]; split; congruence. }
  assert (Hon : includeTsvLine config = true ->
                body msg
                = buildEprText dateIso timepoint "" (noseNums r) (snotNums r)
                    ++ JS.str JS.NL ++ JS.str JS.NL
                    ++ match mode r with
                       | full => "FULL TSV:"
                       | nose => "NOSE TSV only:"
                       | snot => "SNOT-22 TSV only:"
                       end
                    ++ JS.str JS.NL ++ tsv r ++ JS.str JS.NL)
    by (intros E; rewrite E in Hb; rewrite Hb; now destruct (mode r)).
  assert (Hoff : includeTsvLine config = false ->
                 body msg
                 = buildEprText dateIso timepoint "" (noseNums r) (snotNums r)
                     ++ JS.str JS.NL)
    by (intros E; now rewrite E in Hb).
  split; [exact Hon|]. split; [exact Hoff|].
  split; [destruct (mode r); apply Hrow|].
  split; [destruct (mode r); apply Hrow|].
  split; [destruct (mode r); apply Hrow|].
  split; [unfold includeTsvLine; now intros ->|].
  split; [exact Hflag|]. split.
  - intros E. apply Hoff, Hflag, E.
  - intros E. apply Hon. destruct (includeTsvLine config) eqn:F; [reflexivity|].
    exfalso. apply E. now apply Hflag.
Qed.

Lemma patient_message_body_witness :
  (buildPatientMessageOrThrow (mkConfig None) "2024-03-05" "Pre-op"
     [Some 1; Some 2; Some 3; Some 4; Some 0] (repeat None 22)
   = Return (mkMessage "NASALPROM PROMs – 05/03/2024 – Pre-op"
               (buildEprText "2024-03-05" "Pre-op" ""
                  (Some [1; 2; 3; 4; 0]) None
                  ++ JS.str JS.NL ++ JS.str JS.NL
                  ++ "NOSE TSV only:" ++ JS.str JS.NL
                  ++ buildNoseOnlyTSV [1; 2; 3; 4; 0] ++ JS.str JS.NL))
   /\ exists r,
        buildSmartTSV [Some 1; Some 2; Some 3; Some 4; Some 0] (repeat None 22)
        = Return r
        /\ tsv r = buildNoseOnlyTSV [1; 2; 3; 4; 0])
  /\ (buildPatientMessageOrThrow (mkConfig (Some false)) "2024-03-05" "Pre-op"
        [Some 1; Some 2; Some 3; Some 4; Some 0] (repeat None 22)
      = Return (mkMessage "NASALPROM PROMs – 05/03/2024 – Pre-op"
                  (buildEprText "2024-03-05" "Pre-op" ""
                     (Some [1; 2; 3; 4; 0]) None ++ JS.str JS.NL))
      /\ cfg_includeTsvLine (mkConfig (Some false)) = Some false
      /\ exists r,
           buildSmartTSV [Some 1; Some 2; Some 3; Some 4; Some 0]
             (repeat None 22) = Return r
           /\ buildEprText "2024-03-05" "Pre-op" ""
                (Some [1; 2; 3; 4; 0]) None ++ JS.str JS.NL
              = buildEprText "2024-03-05" "Pre-op" ""
                  (noseNums r) (snotNums r) ++ JS.str JS.NL).
Proof.
  split.
  - split; [reflexivity|].
    destruct (patient_message_body (mkConfig None) "2024-03-05" "Pre-op"
                [Some 1; Some 2; Some 3; Some 4; Some 0] (repeat None 22)
                _ eq_refl) as (r & Hr & _ & _ & Hrow & _).
    exists r. split; [exact Hr|]. rewrite Hrow.
    injection Hr as <-. reflexivity.
  - split; [reflexivity|]. split; [reflexivity|].
    destruct (patient_message_body (mkConfig (Some false))
                "2024-03-05" "Pre-op"
                [Some 1; Some 2; Some 3; Some 4; Some 0] (repeat None 22)
                _ eq_refl)
      as (r & Hr & _ & _ & _ & _ & _ & _ & _ & Hoff & _).
    exists r. split; [exact Hr|]. exact (Hoff eq_refl).
Defined.

End PatientMessage.

(** * Further properties of the scoring core *)

Section ScoreRanges.

Implicit Types (nums : list Z) (scores : Scores).

Lemma sum_cons x nums : sum (x :: nums) = x + sum nums.
Proof. now rewrite !sum_fold_right. Qed.

Lemma sum_between lo hi nums :
  Forall (fun v => lo <= v <= hi) nums ->
  lo * Z.of_nat (List.length nums) <= sum nums
  <= hi * Z.of_nat (List.length nums).
Proof.
  induction 1 as [|v nums Hv _ IH].
  - unfold sum. simpl. lia.
  - rewrite sum_cons. cbn [List.length]. lia.
Qed.

(** With every NOSE answer in 0..4 and every SNOT-22 answer in 0..5, as the
    radio buttons give them, the totals stay within the denominators the
    narrative prints: raw NOSE total in 0..20, scaled NOSE score a multiple
    of 5 in 0..100, SNOT-22 total in 0..110. *)
Theorem totals_within_denominators noseNums snotNums :
  List.length noseNums = 5%nat ->
  List.length snotNums = 22%nat ->
  Forall (fun v => 0 <= v <= 4) noseNums ->
  Forall (fun v => 0 <= v <= 5) snotNums ->
  0 <= sum noseNums <= 20
  /\ 0 <= sum noseNums * 5 <= 100
  /\ (sum noseNums * 5) mod 5 = 0
  /\ 0 <= sum snotNums <= 110.
Proof.
  intros Hn Hs Hnose Hsnot.
  pose proof (sum_between 0 4 noseNums Hnose) as Bn.
  pose proof (sum_between 0 5 snotNums Hsnot) as Bs.
  rewrite Hn in Bn. rewrite Hs in Bs.
  repeat split; try lia. apply Z_mod_mult.
Qed.

Lemma totals_within_denominators_witness :
  List.length [4; 4; 4; 4; 4] = 5%nat
  /\ List.length (repeat 5 22) = 22%nat
  /\ sum [4; 4; 4; 4; 4] * 5 <= 100
  /\ sum (repeat 5 22) <= 110.
Proof.
  split; [reflexivity|]. split; [reflexivity|].
  assert (Hn : Forall (fun v => 0 <= v <= 4) [4; 4; 4; 4; 4])
    by (repeat constructor; lia).
  assert (Hs : Forall (fun v => 0 <= v <= 5) (repeat 5 22))
    by (repeat constructor; lia).
  destruct (totals_within_denominators [4; 4; 4; 4; 4] (repeat 5 22)
              eq_refl eq_refl Hn Hs)
    as (_ & Hscaled & _ & Hsnot).
  split; [apply Hscaled|apply Hsnot].
Defined.

(** The running total of the answered items is the total of the list with
    every unanswered item counted as 0. *)
Theorem answered_total_counts_blanks_as_zero scores :
  sum (answeredNumbers scores) = sum (scoresToNumbers scores)
  /\ (completionState scores = empty -> sum (answeredNumbers scores) = 0)
  /\ (completionState scores = complete ->
      answeredNumbers scores = scoresToNumbers scores).
Proof.
  unfold answeredNumbers, scoresToNumbers. split; [|split].
  - induction scores as [|[v|] scores IH]; cbn [filter is_answered map].
    + reflexivity.
    + now rewrite !sum_cons, IH.
    + rewrite sum_cons, IH. cbn [JS.Number]. lia.
  - intros H. apply completionState_empty_iff in H.
    induction H as [|v scores Hv _ IH]; [reflexivity|].
    cbn [filter]. now rewrite Hv.
  - intros H. apply completionState_complete_iff in H as [_ H].
    induction H as [|v scores Hv _ IH]; [reflexivity|].
    cbn [filter]. rewrite Hv. cbn [map]. now rewrite IH.
Qed.

Lemma answered_total_counts_blanks_as_zero_witness :
  completionState [None; None; None] = empty
  /\ sum (answeredNumbers [None; None; None]) = 0.
Proof.
  split; [reflexivity|].
  apply (proj1 (proj2 (answered_total_counts_blanks_as_zero [None; None; None]))).
  reflexivity.
Defined.

End ScoreRanges.

(** * The validation gates *)

Section Gates.

Implicit Types (noseScores snotScores : Scores).

(** The two assertions every output path starts with. *)
Lemma both_asserted noseScores snotScores :
  (let* noseState := assertNotPartialOrThrow "NOSE" noseScores in
   let* snotState := assertNotPartialOrThrow "SNOT-22" snotScores in
   Return (noseState, snotState))
  = match completionState noseScores, completionState snotScores with
    | partial, _ => Throw (partly_completed_message "NOSE")
    | _, partial => Throw (partly_completed_message "SNOT-22")
    | n, s => Return (n, s)
    end.
Proof.
  unfold assertNotPartialOrThrow.
  now destruct (completionState noseScores), (completionState snotScores).
Qed.

(** [buildSmartTSV] fails exactly when a questionnaire is partly completed
    or both are empty.  A partly completed NOSE is reported first, also
    when SNOT-22 is partly completed too; SNOT-22 is reported only when
    NOSE is empty or complete. *)
Theorem buildSmartTSV_failures noseScores snotScores :
  (completionState noseScores = partial ->
   buildSmartTSV noseScores snotScores
   = Throw "NOSE is partly completed. Please answer all questions in NOSE, or clear it and leave it blank.")
  /\ (completionState noseScores <> partial ->
      completionState snotScores = partial ->
      buildSmartTSV noseScores snotScores
      = Throw "SNOT-22 is partly completed. Please answer all questions in SNOT-22, or clear it and leave it blank.")
  /\ ((exists r, buildSmartTSV noseScores snotScores = Return r)
      <-> completionState noseScores <> partial
          /\ completionState snotScores <> partial
          /\ (completionState noseScores = complete
              \/ completionState snotScores = complete)).
Proof.
  unfold buildSmartTSV, assertNotPartialOrThrow.
  split; [|split; [|split]].
  - intros ->. reflexivity.
  - intros Hn ->. now destruct (completionState noseScores).
  - intros [r Hr].
    destruct (completionState noseScores), (completionState snotScores);
      cbn [CompletionState_eqb bind andb] in Hr; try discriminate Hr;
      (split; [discriminate|split; [discriminate|auto]]).
  - intros (Hn & Hs & Hc).
    destruct (completionState noseScores), (completionState snotScores);
      cbn [CompletionState_eqb bind andb]; try congruence;
      try (destruct Hc; discriminate); eexists; reflexivity.
Qed.

Lemma buildSmartTSV_failures_witness :
  completionState [Some 1; None] = partial
  /\ buildSmartTSV [Some 1; None] [None; Some 2]
     = Throw "NOSE is partly completed. Please answer all questions in NOSE, or clear it and leave it blank.".
Proof.
  split; [reflexivity|].
  apply (proj1 (buildSmartTSV_failures [Some 1; None] [None; Some 2])).
  reflexivity.
Defined.

(** The patient message is composed exactly when a TSV row would be
    selected for the same answers; on a partly completed questionnaire both
    fail with the same message, and with both questionnaires empty each
    with its own. *)
Theorem message_gate_is_row_gate
  config dateIso timepoint noseScores snotScores :
  ((exists msg,
      buildPatientMessageOrThrow config dateIso timepoint noseScores snotScores
      = Return msg)
   <-> exists r, buildSmartTSV noseScores snotScores = Return r)
  /\ (completionState noseScores = partial
      \/ completionState snotScores = partial ->
      exists message,
        buildSmartTSV noseScores snotScores = Throw message
        /\ buildPatientMessageOrThrow config dateIso timepoint
             noseScores snotScores = Throw message)
  /\ (completionState noseScores = empty ->
      completionState snotScores = empty ->
      buildSmartTSV noseScores snotScores
      = Throw "Please complete NOSE and/or SNOT-22 before copying."
      /\ buildPatientMessageOrThrow config dateIso timepoint
           noseScores snotScores
         = Throw "Please complete NOSE and/or SNOT-22 before emailing results.").
Proof.
  unfold buildPatientMessageOrThrow, buildSmartTSV, assertNotPartialOrThrow.
  split; [split|split].
  - intros [msg H].
    destruct (completionState noseScores), (completionState snotScores);
      cbn [CompletionState_eqb bind andb] in *; try discriminate H;
      eexists; reflexivity.
  - intros [r H].
    destruct (completionState noseScores), (completionState snotScores);
      cbn [CompletionState_eqb bind andb] in *; try discriminate H;
      destruct (includeTsvLine config); cbn [negb]; eexists; reflexivity.
  - intros H.
    destruct (completionState noseScores), (completionState snotScores);
      cbn [CompletionState_eqb bind andb];
      try (destruct H; discriminate); eexists; split; reflexivity.
  - intros -> ->. split; reflexivity.
Qed.

Lemma message_gate_is_row_gate_witness :
  completionState ([] : Scores) = empty
  /\ buildPatientMessageOrThrow (mkConfig None) "" "" [] []
     = Throw "Please complete NOSE and/or SNOT-22 before emailing results.".
Proof.
  split; [reflexivity|].
  apply (proj2 (proj2 (message_gate_is_row_gate (mkConfig None) "" "" [] [])));
    reflexivity.
Defined.

End Gates.

(** * Dates: the default date and its rendering *)

Section DefaultDate.

Implicit Types (iso s : string).

(** [ddmmyyyy] applied to its own result changes nothing: a date already
    rendered, or passed through, is never reformatted again. *)
Theorem ddmmyyyy_idempotent iso : ddmmyyyy (ddmmyyyy iso) = ddmmyyyy iso.
Proof.
  destruct (date_components iso) as [[[y m] d]|] eqn:E.
  - rewrite (ddmmyyyy_components _ _ _ _ E).
    apply date_components_iso in E as ((_ & Hy) & (_ & Hm) & (_ & Hd) & _).
    apply ddmmyyyy_no_components. unfold date_components.
    rewrite JSFacts.split_no_sep; [reflexivity|].
    rewrite !JSFacts.has_char_app, Hy, Hm, Hd. reflexivity.
  - now rewrite !(ddmmyyyy_no_components _ E).
Qed.

Lemma string_of_uint_no_hyphen u :
  JS.has_char JS.HYPHEN (NilEmpty.string_of_uint u) = false.
Proof. induction u; simpl; auto. Qed.

Lemma String__no_hyphen n :
  0 <= n -> JS.has_char JS.HYPHEN (JS.String_ n) = false.
Proof.
  intros Hn. unfold JS.String_. destruct n as [|p|p]; [reflexivity| |lia].
  apply string_of_uint_no_hyphen.
Qed.

Lemma fill_string_length fill n : String.length (fill_string fill n) = n.
Proof. induction n; simpl; [reflexivity|now rewrite IHn]. Qed.

Lemma append_length a b :
  String.length (a ++ b) = (String.length a + String.length b)%nat.
Proof. induction a as [|c a IH]; simpl; [reflexivity|now rewrite IH]. Qed.

Lemma fill_string_no_char c fill n :
  c <> fill -> JS.has_char c (fill_string fill n) = false.
Proof.
  intros Hc. induction n; simpl; [reflexivity|]. rewrite IHn.
  destruct (Ascii.eqb_spec fill c); [congruence|reflexivity].
Qed.

Lemma padStart_length s n fill :
  String.length (padStart s n fill) = Nat.max n (String.length s).
Proof.
  unfold padStart. rewrite append_length, fill_string_length. lia.
Qed.

Lemma padStart_no_char c s n fill :
  c <> fill -> JS.has_char c s = false ->
  JS.has_char c (padStart s n fill) = false.
Proof.
  intros Hc Hs. unfold padStart.
  now rewrite JSFacts.has_char_app, fill_string_no_char, Hs.
Qed.

Lemma padStart_not_empty s n fill :
  s <> EmptyString -> padStart s n fill <> EmptyString.
Proof.
  intros Hs H. unfold padStart in H. now apply append_empty_inv in H.
Qed.

Lemma padded_number_piece n width :
  0 <= n -> date_piece (padStart (JS.String_ n) width "0").
Proof.
  intros Hn. split.
  - apply padStart_not_empty, JSFacts.String__not_empty.
  - apply padStart_no_char; [discriminate|now apply String__no_hyphen].
Qed.

(** The decimal rendering of a number below 10000 has at most 4
    characters, of one below 100 at most 2. *)
Lemma String__length_bounds n :
  0 <= n ->
  (n <= 9999 -> (String.length (JS.String_ n) <= 4)%nat)
  /\ (n <= 99 -> (String.length (JS.String_ n) <= 2)%nat).
Proof.
  intros Hn.
  assert (H4 : forallb
                 (fun q =>
                    forallb
                      (fun r =>
                         Nat.leb
                           (String.length
                              (JS.String_ (100 * Z.of_nat q + Z.of_nat r))) 4)
                      (seq 0 100))
                 (seq 0 100) = true) by (vm_compute; reflexivity).
  assert (H2 : forallb
                 (fun k => Nat.leb (String.length (JS.String_ (Z.of_nat k))) 2)
                 (seq 0 100) = true) by (vm_compute; reflexivity).
  rewrite forallb_forall in H4, H2. split; intros Hle.
  - pose proof (Z.div_mod n 100 ltac:(lia)) as Hdm.
    pose proof (Z.mod_pos_bound n 100 ltac:(lia)) as Hr.
    assert (Hq : 0 <= n / 100 < 100).
    { split; [apply Z.div_pos; lia|apply Z.div_lt_upper_bound; lia]. }
    specialize (H4 (Z.to_nat (n / 100))).
    rewrite forallb_forall in H4.
    assert (Hin : In (Z.to_nat (n / 100)) (seq 0 100)) by (apply in_seq; lia).
    specialize (H4 Hin (Z.to_nat (n mod 100))).
    assert (Hin' : In (Z.to_nat (n mod 100)) (seq 0 100))
      by (apply in_seq; lia).
    specialize (H4 Hin'). apply Nat.leb_le in H4.
    rewrite !Z2Nat.id, <- Hdm in H4 by lia. exact H4.
  - rewrite <- (Z2Nat.id n Hn). apply Nat.leb_le, H2, in_seq. lia.
Qed.

(** For a date the clock can give (year 0..9999, month 0..11, day 1..31)
    [todayIso] is 10 characters long, "YYYY-MM-DD" with zero padding, and
    [ddmmyyyy] always reformats it, to "DD/MM/YYYY": the default date
    never passes through unchanged. *)
Theorem todayIso_is_reformatted fullYear month date :
  0 <= fullYear <= 9999 ->
  0 <= month <= 11 ->
  1 <= date <= 31 ->
  let y := padStart (JS.String_ fullYear) 4 "0" in
  let m := padStart (JS.String_ (month + 1)) 2 "0" in
  let d := padStart (JS.String_ date) 2 "0" in
  String.length (todayIso fullYear month date) = 10%nat
  /\ String.length y = 4%nat /\ String.length m = 2%nat
  /\ String.length d = 2%nat
  /\ JS.split JS.HYPHEN (todayIso fullYear month date) = [y; m; d]
  /\ ddmmyyyy (todayIso fullYear month date) = d ++ "/" ++ m ++ "/" ++ y
  /\ JS.parseInt (JS.String_ fullYear) = Some fullYear.
Proof.
  intros Hy Hm Hd y m d.
  assert (Py : date_piece y) by (apply padded_number_piece; lia).
  assert (Pm : date_piece m) by (apply padded_number_piece; lia).
  assert (Pd : date_piece d) by (apply padded_number_piece; lia).
  assert (Ly : String.length y = 4%nat).
  { subst y. rewrite padStart_length.
    pose proof (proj1 (String__length_bounds fullYear (proj1 Hy)) (proj2 Hy)).
    lia. }
  assert (Lm : String.length m = 2%nat).
  { subst m. rewrite padStart_length.
    assert (H0 : 0 <= month + 1) by lia.
    assert (H1 : month + 1 <= 99) by lia.
    pose proof (proj2 (String__length_bounds (month + 1) H0) H1). lia. }
  assert (Ld : String.length d = 2%nat).
  { subst d. rewrite padStart_length.
    assert (H0 : 0 <= date) by lia.
    assert (H1 : date <= 99) by lia.
    pose proof (proj2 (String__length_bounds date H0) H1). lia. }
  change (todayIso fullYear month date) with (iso_date y m d None).
  split; [|split; [exact Ly|split; [exact Lm|split; [exact Ld|split; [|split]]]]].
  - unfold iso_date. rewrite !append_length, Ly, Lm, Ld. reflexivity.
  - now rewrite split_iso_date by (apply Py || apply Pm || apply Pd).
  - now apply ddmmyyyy_iso_date.
  - apply JSFacts.parseInt_String_.
Qed.

Lemma todayIso_is_reformatted_witness :
  0 <= 2026 <= 9999 /\ 0 <= 2 <= 11 /\ 1 <= 5 <= 31
  /\ ddmmyyyy (todayIso 2026 2 5) = "05/03/2026".
Proof.
  assert (Hy : 0 <= 2026 <= 9999) by lia.
  assert (Hm : 0 <= 2 <= 11) by lia.
  assert (Hd : 1 <= 5 <= 31) by lia.
  split; [exact Hy|]. split; [exact Hm|]. split; [exact Hd|].
  exact (proj1 (proj2 (proj2 (proj2 (proj2 (proj2
           (todayIso_is_reformatted 2026 2 5 Hy Hm Hd))))))).
Defined.

End DefaultDate.

(** * The radio buttons *)

Section RadioButtons.

Implicit Types (rs : list Radio) (name prefix : string) (count : nat).

Lemma getScores_length rs prefix count :
  List.length (getScores rs prefix count) = count.
Proof. unfold getScores. now rewrite length_map, length_seq. Qed.

Lemma completionState_all_blank count :
  completionState (repeat None count) = empty.
Proof.
  apply completionState_empty_iff, Forall_forall.
  intros v Hv. now apply repeat_spec in Hv as ->.
Qed.

Lemma map_const_None {A : Type} (l : list A) :
  map (fun _ => @None Z) l = repeat None (List.length l).
Proof. induction l; simpl; [reflexivity|now f_equal]. Qed.

(** After unchecking a group nothing of it is found checked; the other
    groups are found as before. *)
Lemma querySelectorChecked_uncheckNamed rs name name' :
  querySelectorChecked (uncheckNamed name rs) name'
  = if String.eqb name' name then None else querySelectorChecked rs name'.
Proof.
  unfold querySelectorChecked, uncheckNamed.
  induction rs as [|r rs IH]; cbn [map find]; [now destruct (String.eqb _ _)|].
  rewrite IH.
  destruct (String.eqb_spec (radio_name r) name) as [E|N].
  - cbn [uncheck radio_name radio_checked]. rewrite andb_false_r.
    destruct (String.eqb_spec name' name) as [E'|N']; [reflexivity|].
    destruct (String.eqb_spec (radio_name r) name') as [E''|]; [congruence|].
    reflexivity.
  - destruct (String.eqb_spec name' name) as [E'|N']; [|reflexivity].
    destruct (String.eqb_spec (radio_name r) name') as [E''|]; [congruence|].
    reflexivity.
Qed.

Lemma querySelectorChecked_reset (naming : nat -> string) indices rs name' :
  querySelectorChecked
    (fold_left (fun acc i => uncheckNamed (naming i) acc) indices rs) name'
  = if existsb (fun i => String.eqb name' (naming i)) indices
    then None else querySelectorChecked rs name'.
Proof.
  revert rs. induction indices as [|i indices IH]; intros rs; [reflexivity|].
  cbn [fold_left existsb]. rewrite IH, querySelectorChecked_uncheckNamed.
  destruct (String.eqb name' (naming i)); cbn [orb]; [|reflexivity].
  now destruct (existsb _ indices).
Qed.

Lemma same_buttons_uncheckNamed rs name : same_buttons rs (uncheckNamed name rs).
Proof.
  unfold same_buttons, uncheckNamed. rewrite map_map. apply map_ext.
  intros r. now destruct (String.eqb _ _).
Qed.

Lemma same_buttons_trans a b c :
  same_buttons a b -> same_buttons b c -> same_buttons a c.
Proof. unfold same_buttons. congruence. Qed.

Lemma same_buttons_reset rs prefix count :
  same_buttons rs (resetRadiosByPrefix rs prefix count).
Proof.
  unfold resetRadiosByPrefix. generalize (seq 0 count). intros indices.
  revert rs. induction indices as [|i indices IH]; intros rs; [reflexivity|].
  cbn [fold_left]. eapply same_buttons_trans; [|apply IH].
  apply same_buttons_uncheckNamed.
Qed.

Lemma same_buttons_resetAll rs : same_buttons rs (resetAllRadios rs).
Proof.
  unfold same_buttons, resetAllRadios. rewrite map_map. now apply map_ext.
Qed.

Lemma getScores_reset_same rs prefix count :
  getScores (resetRadiosByPrefix rs prefix count) prefix count
  = repeat None count.
Proof.
  unfold getScores, resetRadiosByPrefix.
  transitivity (map (fun _ : nat => @None Z) (seq 0 count));
    [|now rewrite map_const_None, length_seq].
  apply map_ext_in. intros i Hi. rewrite querySelectorChecked_reset.
  replace (existsb _ (seq 0 count)) with true; [reflexivity|].
  symmetry. apply existsb_exists. exists i.
  split; [exact Hi|apply String.eqb_refl].
Qed.

Lemma getScores_reset_other rs prefix count prefix' count' :
  (forall i j, String.eqb (prefix' ++ JS.String_ (Z.of_nat i))
                 (prefix ++ JS.String_ (Z.of_nat j)) = false) ->
  getScores (resetRadiosByPrefix rs prefix count) prefix' count'
  = getScores rs prefix' count'.
Proof.
  intros Hdiff. unfold getScores, resetRadiosByPrefix.
  apply map_ext. intros i. rewrite querySelectorChecked_reset.
  replace (existsb _ (seq 0 count)) with false; [reflexivity|].
  symmetry. apply not_true_is_false. intros H.
  apply existsb_exists in H as (j & _ & Hj). now rewrite Hdiff in Hj.
Qed.


(** An answer list read from the page has one slot per item, so for an
    instrument with at least one item the classification is the literal
    one: complete iff every slot is answered, empty iff none is, partial
    otherwise. *)
Theorem getScores_classified rs prefix count :
  (0 < count)%nat ->
  List.length (getScores rs prefix count) = count
  /\ classify_as_stated (getScores rs prefix count).
Proof.
  intros Hc. split; [apply getScores_length|].
  pose proof (getScores_length rs prefix count) as Hlen.
  unfold classify_as_stated. split; [|split].
  - rewrite completionState_complete_iff. split; [now intros [_ H]|].
    intros H. split; [|exact H]. intros E. rewrite E in Hlen.
    simpl in Hlen. lia.
  - apply completionState_empty_iff.
  - apply completionState_partial_iff.
Qed.

Lemma getScores_classified_witness :
  (0 < 5)%nat
  /\ classify_as_stated (getScores mountedRadios "nose_" 5).
Proof.
  split; [lia|]. apply (getScores_classified mountedRadios "nose_" 5). lia.
Defined.

End RadioButtons.

(** * The page the script builds *)

Section ScriptPage.

Implicit Types (rs : list Radio) (page : Page).

Lemma querySelectorChecked_found rs name r :
  querySelectorChecked rs name = Some r ->
  In r rs /\ radio_name r = name /\ radio_checked r = true.
Proof.
  unfold querySelectorChecked. intros H. apply find_some in H as [Hin H].
  apply andb_true_iff in H as [Hn Hc]. apply String.eqb_eq in Hn. auto.
Qed.

(** Every button [addQuestions] makes: a NOSE button holds a score in 0..4,
    a SNOT-22 button a score in 0..5, and the label shows the score. *)
Lemma mountedRadios_checked :
  forall r, In r mountedRadios ->
    (String.prefix "nose_" (radio_name r) = true ->
     0 <= Number_of_value (radio_value r) <= 4)
    /\ (String.prefix "snot_" (radio_name r) = true ->
        0 <= Number_of_value (radio_value r) <= 5)
    /\ radio_label r = JS.String_ (Number_of_value (radio_value r)).
Proof.
  assert (H : forallb
                (fun r =>
                   let n := Number_of_value (radio_value r) in
                   (negb (String.prefix "nose_" (radio_name r))
                    || (Z.leb 0 n && Z.leb n 4))
                   && (negb (String.prefix "snot_" (radio_name r))
                       || (Z.leb 0 n && Z.leb n 5))
                   && String.eqb (radio_label r) (JS.String_ n))
                mountedRadios = true) by (vm_compute; reflexivity).
  rewrite forallb_forall in H. intros r Hr. specialize (H r Hr).
  cbv zeta in H. apply andb_true_iff in H as [H Hl].
  apply andb_true_iff in H as [Hn Hs]. apply String.eqb_eq in Hl.
  split; [|split; [|exact Hl]]; intros Hp; rewrite Hp in *;
    cbn [negb orb] in *; lia.
Qed.

Lemma same_buttons_found rs r :
  same_buttons mountedRadios rs -> In r rs ->
  exists r0, In r0 mountedRadios
             /\ radio_name r0 = radio_name r
             /\ radio_value r0 = radio_value r
             /\ radio_label r0 = radio_label r.
Proof.
  unfold same_buttons. intros Hsame Hin.
  apply (in_map (fun r => (radio_name r, radio_value r, radio_label r))) in Hin.
  rewrite <- Hsame in Hin. apply in_map_iff in Hin as (r0 & E & Hin0).
  exists r0. injection E as En Ev El. auto.
Qed.

Lemma prefix_append p s : String.prefix p (p ++ s) = true.
Proof.
  induction p as [|c p IH]; [apply prefix_nil|].
  simpl. destruct (ascii_dec c c); [exact IH|congruence].
Qed.

Lemma getScores_Forall (P : option Z -> Prop) rs prefix count :
  P None ->
  (forall r, In r rs -> String.prefix prefix (radio_name r) = true ->
             P (Some (Number_of_value (radio_value r)))) ->
  Forall P (getScores rs prefix count).
Proof.
  intros Hnone Hsome. unfold getScores. apply Forall_map, Forall_forall.
  intros i _.
  destruct (querySelectorChecked rs _) as [r|] eqn:E; [|exact Hnone].
  apply querySelectorChecked_found in E as (Hin & Hname & _).
  apply Hsome; [exact Hin|]. rewrite Hname. apply prefix_append.
Qed.

Lemma scoresToNumbers_between lo hi (scores : Scores) :
  lo <= 0 <= hi ->
  Forall (fun v => match v with
                   | Some n => lo <= n <= hi
                   | None => True
                   end) scores ->
  Forall (fun n => lo <= n <= hi) (scoresToNumbers scores).
Proof.
  intros H0 H. unfold scoresToNumbers. apply Forall_map.
  eapply Forall_impl; [|exact H]. intros [n|]; cbn [JS.Number]; auto.
Qed.

(** Whatever is checked on the page the script builds, every score read
    lies in its questionnaire's range, the score read from a checked button
    is the number its label shows, and a selected TSV row or narrative
    carries totals within range: NOSE raw in 0..20, scaled in 0..100,
    SNOT-22 in 0..110. *)
Theorem script_page_scores_in_range rs :
  same_buttons mountedRadios rs ->
  let noseScores := getScores rs "nose_" (List.length NOSE_ITEMS) in
  let snotScores := getScores rs "snot_" (List.length SNOT_ITEMS) in
  Forall (fun v => match v with Some n => 0 <= n <= 4 | None => True end)
    noseScores
  /\ Forall (fun v => match v with Some n => 0 <= n <= 5 | None => True end)
       snotScores
  /\ (forall name r,
        querySelectorChecked rs name = Some r ->
        radio_label r = JS.String_ (Number_of_value (radio_value r)))
  /\ (forall result,
        buildSmartTSV noseScores snotScores = Return result ->
        (forall nums, noseNums result = Some nums ->
                      0 <= sum nums <= 20 /\ 0 <= sum nums * 5 <= 100)
        /\ (forall nums, snotNums result = Some nums ->
                         0 <= sum nums <= 110)).
Proof.
  intros Hsame noseScores snotScores.
  assert (Hnose : Forall (fun v => match v with
                                   | Some n => 0 <= n <= 4
                                   | None => True
                                   end) noseScores).
  { apply getScores_Forall; [exact I|]. intros r Hin Hp.
    destruct (same_buttons_found _ _ Hsame Hin) as (r0 & Hin0 & En & Ev & _).
    rewrite <- Ev. apply (mountedRadios_checked r0 Hin0). now rewrite En. }
  assert (Hsnot : Forall (fun v => match v with
                                   | Some n => 0 <= n <= 5
                                   | None => True
                                   end) snotScores).
  { apply getScores_Forall; [exact I|]. intros r Hin Hp.
    destruct (same_buttons_found _ _ Hsame Hin) as (r0 & Hin0 & En & Ev & _).
    rewrite <- Ev. apply (mountedRadios_checked r0 Hin0). now rewrite En. }
  split; [exact Hnose|]. split; [exact Hsnot|]. split.
  - intros name r Hr. apply querySelectorChecked_found in Hr as (Hin & _).
    destruct (same_buttons_found _ _ Hsame Hin) as (r0 & Hin0 & _ & Ev & El).
    rewrite <- Ev, <- El. apply (mountedRadios_checked r0 Hin0).
  - intros result Hres. pose proof (buildSmartTSV_row _ _ _ Hres) as Hrow.
    assert (Bn : 0 <= sum (scoresToNumbers noseScores) <= 20).
    { pose proof (sum_between 0 4 _
                    (scoresToNumbers_between 0 4 _ ltac:(lia) Hnose)) as B.
      rewrite scoresToNumbers_length in B. subst noseScores.
      rewrite getScores_length in B. cbn [List.length NOSE_ITEMS] in B |- *. lia. }
    assert (Bs : 0 <= sum (scoresToNumbers snotScores) <= 110).
    { pose proof (sum_between 0 5 _
                    (scoresToNumbers_between 0 5 _ ltac:(lia) Hsnot)) as B.
      rewrite scoresToNumbers_length in B. subst snotScores.
      rewrite getScores_length in B. cbn [List.length SNOT_ITEMS] in B |- *. lia. }
    split; intros nums Hnums.
    + assert (nums = scoresToNumbers noseScores) as ->
        by (destruct (mode result);
            destruct Hrow as (_ & _ & _ & Hn & _); congruence).
      lia.
    + assert (nums = scoresToNumbers snotScores) as ->
        by (destruct (mode result);
            destruct Hrow as (_ & _ & _ & _ & Hs); congruence).
      lia.
Qed.

Lemma script_page_scores_in_range_witness :
  same_buttons mountedRadios threesChecked
  /\ getScores threesChecked "nose_" (List.length NOSE_ITEMS)
     = repeat (Some 3) 5
  /\ Forall (fun v => match v with Some n => 0 <= n <= 4 | None => True end)
       (getScores threesChecked "nose_" (List.length NOSE_ITEMS))
  /\ buildSmartTSV
       (getScores threesChecked "nose_" (List.length NOSE_ITEMS))
       (getScores threesChecked "snot_" (List.length SNOT_ITEMS))
     = Return (mkSmartTSV full
                 (buildFullBlockTSV (repeat 3 5) (repeat 3 22))
                 (Some (repeat 3 5)) (Some (repeat 3 22)))
  /\ (0 <= sum (repeat 3 5) <= 20 /\ 0 <= sum (repeat 3 5) * 5 <= 100)
  /\ 0 <= sum (repeat 3 22) <= 110
  /\ (forall name r,
        querySelectorChecked threesChecked name = Some r ->
        radio_label r = JS.String_ (Number_of_value (radio_value r))).
Proof.
  assert (H : same_buttons mountedRadios threesChecked) by reflexivity.
  destruct (script_page_scores_in_range threesChecked H)
    as (Hnose & _ & Hlabel & Hrow).
  destruct (Hrow (mkSmartTSV full
                    (buildFullBlockTSV (repeat 3 5) (repeat 3 22))
                    (Some (repeat 3 5)) (Some (repeat 3 22))) eq_refl)
    as (Hn & Hs).
  split; [exact H|]. split; [reflexivity|]. split; [exact Hnose|].
  split; [reflexivity|]. split; [exact (Hn _ eq_refl)|].
  split; [exact (Hs _ eq_refl)|exact Hlabel].
Defined.

End ScriptPage.

(** * The handlers *)

Section Handlers.

Implicit Types (page : Page) (config : Config).

Lemma buildSmartTSV_blocked noseScores snotScores :
  blocked noseScores snotScores ->
  exists message, buildSmartTSV noseScores snotScores = Throw message.
Proof.
  unfold blocked, buildSmartTSV, assertNotPartialOrThrow.
  destruct (completionState noseScores), (completionState snotScores);
    cbn [CompletionState_eqb bind andb];
    intros [H|[H|[H1 H2]]]; try discriminate; eexists; reflexivity.
Qed.

Lemma buildPatientMessageOrThrow_blocked
  config dateIso timepoint noseScores snotScores :
  blocked noseScores snotScores ->
  exists message,
    buildPatientMessageOrThrow config dateIso timepoint noseScores snotScores
    = Throw message.
Proof.
  unfold blocked, buildPatientMessageOrThrow, assertNotPartialOrThrow.
  destruct (completionState noseScores), (completionState snotScores);
    cbn [CompletionState_eqb bind andb];
    intros [H|[H|[H1 H2]]]; try discriminate; eexists; reflexivity.
Qed.

Lemma buildSmartTSV_usable noseScores snotScores :
  ~ blocked noseScores snotScores ->
  exists r, buildSmartTSV noseScores snotScores = Return r.
Proof.
  unfold blocked, buildSmartTSV, assertNotPartialOrThrow.
  destruct (completionState noseScores), (completionState snotScores);
    cbn [CompletionState_eqb bind andb]; intros H;
    try (eexists; reflexivity); exfalso; apply H; auto.
Qed.

Lemma buildPatientMessageOrThrow_usable
  config dateIso timepoint noseScores snotScores :
  ~ blocked noseScores snotScores ->
  exists msg,
    buildPatientMessageOrThrow config dateIso timepoint noseScores snotScores
    = Return msg.
Proof.
  unfold blocked, buildPatientMessageOrThrow, assertNotPartialOrThrow.
  destruct (completionState noseScores), (completionState snotScores);
    cbn [CompletionState_eqb bind andb]; intros H;
    try (destruct (includeTsvLine config); cbn [negb]; eexists; reflexivity);
    exfalso; apply H; auto.
Qed.

(** The EPR handler's own gate, by completion states. *)
Lemma copyEprClick_cases page :
  copyEprClick page
  = match completionState (noseScoresOf page),
          completionState (snotScoresOf page) with
    | partial, _ => [Alert (partly_completed_message "NOSE")]
    | _, partial => [Alert (partly_completed_message "SNOT-22")]
    | empty, empty =>
        [Alert "Please complete NOSE and/or SNOT-22 before copying EPR text."]
    | n, s =>
        let txt :=
          buildEprText (valueOf page "date") (valueOf page "timepoint")
            (blockLabelOf page)
            (if CompletionState_eqb n complete
             then Some (scoresToNumbers (noseScoresOf page)) else None)
            (if CompletionState_eqb s complete
             then Some (scoresToNumbers (snotScoresOf page)) else None) in
        (setValueIfPresent page "preview" txt
           ++ fst (copyToClipboard page txt)
           ++ [Alert "Copied EPR text."])%list
    end.
Proof.
  unfold copyEprClick. fold (noseScoresOf page). fold (snotScoresOf page).
  rewrite both_asserted.
  now destruct (completionState (noseScoresOf page)),
    (completionState (snotScoresOf page)).
Qed.

(** No copy, no e-mail and no preview of results from unusable answers:
    when a questionnaire is partly completed, or both are empty, each of
    the four buttons only shows one alert. *)
Theorem buttons_only_alert_when_blocked config configuredEmailTo page :
  blocked (noseScoresOf page) (snotScoresOf page) ->
  (exists message, copySheetClick page = [Alert message])
  /\ (exists message, copyEprClick page = [Alert message])
  /\ (exists message, copyPatientTextClick config page = [Alert message])
  /\ (exists message,
        emailResultsClick config configuredEmailTo page = [Alert message]).
Proof.
  intros Hb. repeat split.
  - destruct (buildSmartTSV_blocked _ _ Hb) as [message E].
    exists message. unfold copySheetClick. fold (noseScoresOf page).
    fold (snotScoresOf page). now rewrite E.
  - rewrite copyEprClick_cases. unfold blocked in Hb.
    destruct (completionState (noseScoresOf page)),
      (completionState (snotScoresOf page));
      try (eexists; reflexivity);
      destruct Hb as [H|[H|[H1 H2]]]; discriminate.
  - destruct (buildPatientMessageOrThrow_blocked config
                (valueOf page "p_date") (valueOf page "p_timepoint") _ _ Hb)
      as [message E].
    exists message. unfold copyPatientTextClick, pagePatientMessage.
    fold (noseScoresOf page). fold (snotScoresOf page). now rewrite E.
  - destruct (buildPatientMessageOrThrow_blocked config
                (valueOf page "p_date") (valueOf page "p_timepoint") _ _ Hb)
      as [message E].
    exists message. unfold emailResultsClick, pagePatientMessage.
    fold (noseScoresOf page). fold (snotScoresOf page). now rewrite E.
Qed.

Lemma buttons_only_alert_when_blocked_witness :
  blocked (noseScoresOf (mkPage mountedRadios (fun _ => Some EmptyString) true))
    (snotScoresOf (mkPage mountedRadios (fun _ => Some EmptyString) true))
  /\ exists message,
       copySheetClick (mkPage mountedRadios (fun _ => Some EmptyString) true)
       = [Alert message].
Proof.
  assert (Hb : blocked
                 (noseScoresOf
                    (mkPage mountedRadios (fun _ => Some EmptyString) true))
                 (snotScoresOf
                    (mkPage mountedRadios (fun _ => Some EmptyString) true)))
    by (right; right; split; reflexivity).
  split; [exact Hb|].
  exact (proj1 (buttons_only_alert_when_blocked (mkConfig None) None _ Hb)).
Defined.

(** With usable answers every button acts, and a copy that cannot be made
    is not reported: when [navigator.clipboard.writeText] fails and the
    page has no preview element, the three copy buttons put nothing on the
    clipboard and still end with their "Copied ..." alert. *)
Theorem copy_failure_is_not_reported config page :
  ~ blocked (noseScoresOf page) (snotScoresOf page) ->
  clipboard_ok page = false ->
  elements page "preview" = None ->
  (exists r,
     buildSmartTSV (noseScoresOf page) (snotScoresOf page) = Return r
     /\ copySheetClick page = [Alert (copiedAlert (mode r))])
  /\ copyEprClick page = [Alert "Copied EPR text."]
  /\ copyPatientTextClick config page = [Alert "Copied results text."]
  /\ existsb copies (copySheetClick page ++ copyEprClick page
                       ++ copyPatientTextClick config page) = false.
Proof.
  intros Hu Hclip Hprev.
  destruct (buildSmartTSV_usable _ _ Hu) as [r Er].
  destruct (buildPatientMessageOrThrow_usable config
              (valueOf page "p_date") (valueOf page "p_timepoint") _ _ Hu)
    as [msg Em].
  assert (Hsheet : copySheetClick page = [Alert (copiedAlert (mode r))]).
  { unfold copySheetClick, copyToClipboard, setValueIfPresent.
    fold (noseScoresOf page). fold (snotScoresOf page).
    now rewrite Er, Hclip, Hprev. }
  assert (Hepr : copyEprClick page = [Alert "Copied EPR text."]).
  { rewrite copyEprClick_cases. unfold copyToClipboard, setValueIfPresent.
    rewrite Hclip, Hprev. unfold blocked in Hu.
    destruct (completionState (noseScoresOf page)),
      (completionState (snotScoresOf page)); try reflexivity;
      exfalso; apply Hu; auto. }
  assert (Hpat : copyPatientTextClick config page
                 = [Alert "Copied results text."]).
  { unfold copyPatientTextClick, pagePatientMessage, copyToClipboard,
      setValueIfPresent.
    fold (noseScoresOf page). fold (snotScoresOf page).
    now rewrite Em, Hclip, Hprev. }
  split; [exists r; auto|]. split; [exact Hepr|]. split; [exact Hpat|].
  now rewrite Hsheet, Hepr, Hpat.
Qed.

Lemma copy_failure_is_not_reported_witness :
  ~ blocked (noseScoresOf bareNosePage) (snotScoresOf bareNosePage)
  /\ clipboard_ok bareNosePage = false
  /\ elements bareNosePage "preview" = None
  /\ copyEprClick bareNosePage = [Alert "Copied EPR text."].
Proof.
  assert (Hu : ~ blocked (noseScoresOf bareNosePage) (snotScoresOf bareNosePage)).
  { intros [H|[H|[H _]]]; vm_compute in H; discriminate H. }
  split; [exact Hu|]. split; [reflexivity|]. split; [reflexivity|].
  exact (proj1 (proj2 (copy_failure_is_not_reported (mkConfig None)
                         bareNosePage Hu eq_refl eq_refl))).
Defined.

(** ** The live totals and the preview of the clinician page *)

Lemma nth_error_after {A : Type} (l1 : list A) (x : A) (l2 : list A) :
  nth_error (l1 ++ x :: l2) (List.length l1) = Some x.
Proof. rewrite nth_error_app2, Nat.sub_diag by lia. reflexivity. Qed.

(** ** The patient page: preview and message *)



(** ** The reset buttons *)

Lemma scores_after_resetNose page :
  noseScoresOf (noseCleared page) = repeat None 5
  /\ snotScoresOf (noseCleared page) = snotScoresOf page.
Proof.
  unfold noseScoresOf, snotScoresOf, noseCleared. cbn [setRadios radios].
  split; [apply getScores_reset_same|].
  apply getScores_reset_other. reflexivity.
Qed.

Lemma scores_after_resetSnot page :
  snotScoresOf (snotCleared page) = repeat None 22
  /\ noseScoresOf (snotCleared page) = noseScoresOf page.
Proof.
  unfold noseScoresOf, snotScoresOf, snotCleared. cbn [setRadios radios].
  split; [apply getScores_reset_same|].
  apply getScores_reset_other. reflexivity.
Qed.

Lemma total_when_complete scores :
  completionState scores = complete ->
  sum (answeredNumbers scores) = sum (scoresToNumbers scores).
Proof.
  intros Hc. unfold answeredNumbers, scoresToNumbers.
  apply completionState_complete_iff in Hc as [_ Hc].
  induction Hc as [|v l Hv _ IH]; [reflexivity|].
  cbn [filter]. rewrite Hv. cbn [map]. now rewrite !sum_cons, IH.
Qed.

Lemma elements_setValue id v page id' :
  elements (setValue id v page) id'
  = if String.eqb id' id
    then option_map (fun _ => v) (elements page id')
    else elements page id'.
Proof.
  cbn [setValue elements]. destruct (String.eqb id' id); [|reflexivity].
  now destruct (elements page id').
Qed.

Lemma clinicianOnChange_trace page :
  clinicianOnChange page
  = (setTextIfPresent page "noseTotal"
       (JS.String_ (sum (answeredNumbers (noseScoresOf page))))
       ++ setTextIfPresent page "snotTotal"
            (JS.String_ (sum (answeredNumbers (snotScoresOf page))))
       ++ setValueIfPresent page "preview"
            (clinicianShown (noseScoresOf page) (snotScoresOf page)))%list.
Proof.
  unfold clinicianOnChange, clinicianShown, setValueIfPresent.
  fold (noseScoresOf page). fold (snotScoresOf page).
  destruct (elements page "preview"); [|reflexivity].
  now destruct (buildSmartTSV (noseScoresOf page) (snotScoresOf page)).
Qed.

Lemma radios_applyEffects trace page :
  radios (applyEffects trace page) = radios page.
Proof.
  unfold applyEffects. revert page.
  induction trace as [|e trace IH]; intros page; [reflexivity|].
  cbn [fold_left]. rewrite IH. now destruct e.
Qed.

(** The page after a refresh: the two totals and the preview hold what was
    written to them, every other element is as before. *)
Lemma elements_after_refresh page noseTotal snotTotal shown key :
  elements
    (applyEffects
       (setTextIfPresent page "noseTotal" noseTotal
          ++ setTextIfPresent page "snotTotal" snotTotal
          ++ setValueIfPresent page "preview" shown)%list page) key
  = if String.eqb key "noseTotal"
    then option_map (fun _ => noseTotal) (elements page key)
    else if String.eqb key "snotTotal"
    then option_map (fun _ => snotTotal) (elements page key)
    else if String.eqb key "preview"
    then option_map (fun _ => shown) (elements page key)
    else elements page key.
Proof.
  unfold setTextIfPresent, setValueIfPresent.
  destruct (String.eqb_spec key "noseTotal") as [->|N1];
    [|destruct (String.eqb_spec key "snotTotal") as [->|N2];
      [|destruct (String.eqb_spec key "preview") as [->|N3]]];
    destruct (elements page "noseTotal") eqn:E1,
      (elements page "snotTotal") eqn:E2,
      (elements page "preview") eqn:E3;
    cbn [app applyEffects fold_left applyEffect];
    rewrite ?elements_setValue;
    repeat match goal with
           | |- context [String.eqb ?a ?b] =>
               first [ rewrite (proj2 (String.eqb_neq a b)) by assumption
                     | progress
                         (let v := eval vm_compute in (String.eqb a b) in
                          change (String.eqb a b) with v) ]
           end;
    cbv iota; rewrite ?E1, ?E2, ?E3; reflexivity.
Qed.

(** The total shown beside a questionnaire is the total pasted in the
    sheet.  Whenever the answers give a row, the refresh writes, to each of
    the three elements that exists, the NOSE total, the SNOT-22 total and
    the row; it writes nothing else to them; the NOSE total written is the
    field of the row that follows the five NOSE answers (full and NOSE-only
    rows) and the SNOT-22 total written is the last field of the row (full
    and SNOT-only rows). *)
Theorem displayed_totals_match_row page r :
  buildSmartTSV (noseScoresOf page) (snotScoresOf page) = Return r ->
  let fields := JS.split JS.TAB (tsv r) in
  let noseTotal := JS.String_ (sum (answeredNumbers (noseScoresOf page))) in
  let snotTotal := JS.String_ (sum (answeredNumbers (snotScoresOf page))) in
  clinicianOnChange page
  = (setTextIfPresent page "noseTotal" noseTotal
       ++ setTextIfPresent page "snotTotal" snotTotal
       ++ setValueIfPresent page "preview" (tsv r))%list
  /\ (elements page "noseTotal" <> None ->
      In (SetText "noseTotal" noseTotal) (clinicianOnChange page))
  /\ (elements page "snotTotal" <> None ->
      In (SetText "snotTotal" snotTotal) (clinicianOnChange page))
  /\ (elements page "preview" <> None ->
      In (SetValue "preview" (tsv r)) (clinicianOnChange page))
  /\ (mode r <> snot -> nth_error fields 5 = Some noseTotal)
  /\ (mode r <> nose -> last fields EmptyString = snotTotal)
  /\ (forall total,
       In (SetText "noseTotal" total) (clinicianOnChange page) ->
       total = noseTotal)
  /\ (forall total,
       In (SetText "snotTotal" total) (clinicianOnChange page) ->
       total = snotTotal)
  /\ (forall shown,
       In (SetValue "preview" shown) (clinicianOnChange page) ->
       shown = tsv r).
Proof.
  intros Hr fields noseTotal snotTotal.
  pose proof (buildSmartTSV_row _ _ _ Hr) as Hrow.
  assert (Hlen : List.length (scoresToNumbers (noseScoresOf page)) = 5%nat).
  { rewrite scoresToNumbers_length. apply getScores_length. }
  assert (Htrace : clinicianOnChange page
                   = (setTextIfPresent page "noseTotal" noseTotal
                        ++ setTextIfPresent page "snotTotal" snotTotal
                        ++ setValueIfPresent page "preview" (tsv r))%list).
  { rewrite clinicianOnChange_trace. unfold clinicianShown. now rewrite Hr. }
  split; [exact Htrace|]. rewrite Htrace.
  unfold setTextIfPresent, setValueIfPresent.
  split; [|split; [|split; [|split; [|split; [|split; [|split]]]]]].
  - destruct (elements page "noseTotal"); [|congruence].
    intros _. left. reflexivity.
  - destruct (elements page "snotTotal"); [|congruence].
    intros _. apply in_or_app. right. left. reflexivity.
  - destruct (elements page "preview"); [|congruence].
    intros _. apply in_or_app. right. apply in_or_app. right. left.
    reflexivity.
  - intros Hmode. subst fields noseTotal.
    destruct (mode r); [| |contradiction];
      destruct Hrow as (Hn & _ & -> & _); rewrite (total_when_complete _ Hn).
    + rewrite buildFullBlockTSV_fields. rewrite <- Hlen at 1.
      rewrite <- (length_map JS.String_). apply nth_error_after.
    + rewrite buildNoseOnlyTSV_fields. rewrite <- Hlen at 1.
      rewrite <- (length_map JS.String_). apply nth_error_after.
  - intros Hmode. subst fields snotTotal.
    destruct (mode r); [|contradiction|];
      destruct Hrow as (_ & Hs & -> & _); rewrite (total_when_complete _ Hs).
    + rewrite buildFullBlockTSV_fields, !app_assoc. apply last_last.
    + rewrite buildSnotOnlyTSV_fields. apply last_last.
  - intros total Hin.
    destruct (elements page "noseTotal"), (elements page "snotTotal"),
      (elements page "preview"); cbn [app In] in Hin;
      repeat (destruct Hin as [Hin|Hin];
              [try discriminate Hin; try (now injection Hin)|]);
      contradiction.
  - intros total Hin.
    destruct (elements page "noseTotal"), (elements page "snotTotal"),
      (elements page "preview"); cbn [app In] in Hin;
      repeat (destruct Hin as [Hin|Hin];
              [try discriminate Hin; try (now injection Hin)|]);
      contradiction.
  - intros shown Hin.
    destruct (elements page "noseTotal"), (elements page "snotTotal"),
      (elements page "preview"); cbn [app In] in Hin;
      repeat (destruct Hin as [Hin|Hin];
              [try discriminate Hin; try (now injection Hin)|]);
      contradiction.
Qed.

Lemma displayed_totals_match_row_witness :
  buildSmartTSV (noseScoresOf answeredPage) (snotScoresOf answeredPage)
  = Return (mkSmartTSV full
              (buildFullBlockTSV [1; 1; 1; 1; 1] (repeat 2 22))
              (Some [1; 1; 1; 1; 1]) (Some (repeat 2 22)))
  /\ clinicianOnChange answeredPage
     = [SetText "noseTotal" "5"; SetText "snotTotal" "44";
        SetValue "preview" (buildFullBlockTSV [1; 1; 1; 1; 1] (repeat 2 22))]
  /\ nth_error
       (JS.split JS.TAB (buildFullBlockTSV [1; 1; 1; 1; 1] (repeat 2 22))) 5
     = Some "5".
Proof.
  split; [reflexivity|].
  destruct (displayed_totals_match_row answeredPage
              (mkSmartTSV full
                 (buildFullBlockTSV [1; 1; 1; 1; 1] (repeat 2 22))
                 (Some [1; 1; 1; 1; 1]) (Some (repeat 2 22)))
              eq_refl) as (Htrace & _ & _ & _ & Hnose & _).
  split; [exact Htrace|]. apply Hnose. discriminate.
Defined.



Lemma refresh_after_noseCleared page :
  clinicianOnChange (noseCleared page)
  = (setTextIfPresent (noseCleared page) "noseTotal" "0"
       ++ setTextIfPresent (noseCleared page) "snotTotal"
            (JS.String_ (sum (answeredNumbers (snotScoresOf page))))
       ++ setValueIfPresent (noseCleared page) "preview"
            (clinicianShown (repeat None 5) (snotScoresOf page)))%list.
Proof.
  rewrite clinicianOnChange_trace.
  destruct (scores_after_resetNose page) as [-> ->]. reflexivity.
Qed.

Lemma refresh_after_snotCleared page :
  clinicianOnChange (snotCleared page)
  = (setTextIfPresent (snotCleared page) "noseTotal"
       (JS.String_ (sum (answeredNumbers (noseScoresOf page))))
       ++ setTextIfPresent (snotCleared page) "snotTotal" "0"
       ++ setValueIfPresent (snotCleared page) "preview"
            (clinicianShown (noseScoresOf page) (repeat None 22)))%list.
Proof.
  rewrite clinicianOnChange_trace.
  destruct (scores_after_resetSnot page) as [-> ->]. reflexivity.
Qed.

(** The reset button of one questionnaire clears that questionnaire only.
    Afterwards its answers are all read as unanswered, the answers of the
    other questionnaire are read as before and the buttons are the same.
    The refresh that closes the handler writes the cleared total as 0, the
    other total, and in the preview the outcome of the selection on the
    answers that are left; these three elements hold what was written, and
    every other element is as before. *)
Theorem reset_buttons_clear_one_questionnaire page :
  (let after := fst (resetNoseClick page) in
   let snotTotal := JS.String_ (sum (answeredNumbers (snotScoresOf page))) in
   let shown := clinicianShown (repeat None 5) (snotScoresOf page) in
   noseScoresOf after = repeat None 5
   /\ snotScoresOf after = snotScoresOf page
   /\ same_buttons (radios page) (radios after)
   /\ snd (resetNoseClick page)
      = (setTextIfPresent page "noseTotal" "0"
           ++ setTextIfPresent page "snotTotal" snotTotal
           ++ setValueIfPresent page "preview" shown)%list
   /\ forall key,
        elements after key
        = if String.eqb key "noseTotal"
          then option_map (fun _ => "0") (elements page key)
          else if String.eqb key "snotTotal"
          then option_map (fun _ => snotTotal) (elements page key)
          else if String.eqb key "preview"
          then option_map (fun _ => shown) (elements page key)
          else elements page key)
  /\ (let after := fst (resetSnotClick page) in
      let noseTotal := JS.String_ (sum (answeredNumbers (noseScoresOf page))) in
      let shown := clinicianShown (noseScoresOf page) (repeat None 22) in
      snotScoresOf after = repeat None 22
      /\ noseScoresOf after = noseScoresOf page
      /\ same_buttons (radios page) (radios after)
      /\ snd (resetSnotClick page)
         = (setTextIfPresent page "noseTotal" noseTotal
              ++ setTextIfPresent page "snotTotal" "0"
              ++ setValueIfPresent page "preview" shown)%list
      /\ forall key,
           elements after key
           = if String.eqb key "noseTotal"
             then option_map (fun _ => noseTotal) (elements page key)
             else if String.eqb key "snotTotal"
             then option_map (fun _ => "0") (elements page key)
             else if String.eqb key "preview"
             then option_map (fun _ => shown) (elements page key)
             else elements page key).
Proof.
  split; cbv zeta; unfold resetNoseClick, resetSnotClick; cbn [fst snd].
  - destruct (scores_after_resetNose page) as [En Es].
    split; [|split; [|split; [|split]]].
    + unfold noseScoresOf. rewrite radios_applyEffects. exact En.
    + unfold snotScoresOf at 1. rewrite radios_applyEffects. exact Es.
    + rewrite radios_applyEffects. apply same_buttons_reset.
    + apply refresh_after_noseCleared.
    + intros key. rewrite refresh_after_noseCleared.
      exact (elements_after_refresh (noseCleared page) _ _ _ key).
  - destruct (scores_after_resetSnot page) as [Es En].
    split; [|split; [|split; [|split]]].
    + unfold snotScoresOf. rewrite radios_applyEffects. exact Es.
    + unfold noseScoresOf at 1. rewrite radios_applyEffects. exact En.
    + rewrite radios_applyEffects. apply same_buttons_reset.
    + apply refresh_after_snotCleared.
    + intros key. rewrite refresh_after_snotCleared.
      exact (elements_after_refresh (snotCleared page) _ _ _ key).
Qed.

Lemma reset_buttons_clear_one_questionnaire_witness :
  snd (resetNoseClick answeredPage)
  = [SetText "noseTotal" "0"; SetText "snotTotal" "44";
     SetValue "preview" (buildSnotOnlyTSV (repeat 2 22))]
  /\ noseScoresOf (fst (resetNoseClick answeredPage)) = repeat None 5
  /\ snotScoresOf (fst (resetNoseClick answeredPage)) = repeat (Some 2) 22
  /\ elements (fst (resetNoseClick answeredPage)) "noseTotal" = Some "0"
  /\ elements (fst (resetNoseClick answeredPage)) "preview"
     = Some (buildSnotOnlyTSV (repeat 2 22))
  /\ elements (fst (resetNoseClick answeredPage)) "date" = Some EmptyString.
Proof.
  destruct (reset_buttons_clear_one_questionnaire answeredPage)
    as [(Hnose & Hsnot & _ & Htrace & Helements) _].
  split; [exact Htrace|]. split; [exact Hnose|]. split; [exact Hsnot|].
  split; [exact (Helements "noseTotal")|].
  split; [exact (Helements "preview")|exact (Helements "date")].
Defined.

(** Clearing one questionnaire on a page whose other questionnaire is
    complete leaves a usable page: the refresh that closes the handler
    writes 0 as the cleared total, the other total unchanged, and in the
    preview the single-instrument row of the questionnaire that is left;
    the preview of the page left holds that row. *)
Theorem reset_one_keeps_the_other_row page :
  (completionState (snotScoresOf page) = complete ->
   snd (resetNoseClick page)
   = (setTextIfPresent page "noseTotal" "0"
        ++ setTextIfPresent page "snotTotal"
             (JS.String_ (sum (scoresToNumbers (snotScoresOf page))))
        ++ setValueIfPresent page "preview"
             (buildSnotOnlyTSV (scoresToNumbers (snotScoresOf page))))%list
   /\ elements (fst (resetNoseClick page)) "preview"
      = option_map
          (fun _ => buildSnotOnlyTSV (scoresToNumbers (snotScoresOf page)))
          (elements page "preview"))
  /\ (completionState (noseScoresOf page) = complete ->
      snd (resetSnotClick page)
      = (setTextIfPresent page "noseTotal"
           (JS.String_ (sum (scoresToNumbers (noseScoresOf page))))
           ++ setTextIfPresent page "snotTotal" "0"
           ++ setValueIfPresent page "preview"
                (buildNoseOnlyTSV (scoresToNumbers (noseScoresOf page))))%list
      /\ elements (fst (resetSnotClick page)) "preview"
         = option_map
             (fun _ => buildNoseOnlyTSV (scoresToNumbers (noseScoresOf page)))
             (elements page "preview")).
Proof.
  split; intros Hc; unfold resetNoseClick, resetSnotClick; cbn [fst snd].
  - assert (Eshown : clinicianShown (repeat None 5) (snotScoresOf page)
                     = buildSnotOnlyTSV (scoresToNumbers (snotScoresOf page))).
    { unfold clinicianShown.
      rewrite (buildSmartTSV_states (repeat None 5) (snotScoresOf page))
        by (rewrite ?Hc; discriminate).
      now rewrite Hc. }
    rewrite refresh_after_noseCleared, Eshown, (total_when_complete _ Hc).
    split; [reflexivity|].
    exact (elements_after_refresh (noseCleared page) _ _ _ "preview").
  - assert (Eshown : clinicianShown (noseScoresOf page) (repeat None 22)
                     = buildNoseOnlyTSV (scoresToNumbers (noseScoresOf page))).
    { unfold clinicianShown.
      rewrite (buildSmartTSV_states (noseScoresOf page) (repeat None 22))
        by (rewrite ?Hc; discriminate).
      now rewrite Hc. }
    rewrite refresh_after_snotCleared, Eshown, (total_when_complete _ Hc).
    split; [reflexivity|].
    exact (elements_after_refresh (snotCleared page) _ _ _ "preview").
Qed.

Lemma reset_one_keeps_the_other_row_witness :
  completionState (snotScoresOf answeredPage) = complete
  /\ snd (resetNoseClick answeredPage)
     = [SetText "noseTotal" "0"; SetText "snotTotal" "44";
        SetValue "preview" (buildSnotOnlyTSV (repeat 2 22))]
  /\ elements (fst (resetNoseClick answeredPage)) "preview"
     = Some (buildSnotOnlyTSV (repeat 2 22)).
Proof.
  split; [reflexivity|].
  exact (proj1 (reset_one_keeps_the_other_row answeredPage) eq_refl).
Defined.


End Handlers.

(** * The mail link *)

Section MailLink.

Implicit Types (s : string) (msg : Message).

Lemma percent_encode_byte c :
  ascii_of_nat (16 * unhex (hex_digit (nat_of_ascii c / 16))
                + unhex (hex_digit (nat_of_ascii c mod 16))) = c
  /\ JS.all_chars uri_safe (percent_encode c) = true
  /\ (uri_unreserved c = true -> Ascii.eqb c "%" = false).
Proof.
  destruct c as [[] [] [] [] [] [] [] []]; vm_compute;
    repeat split; (reflexivity || discriminate).
Qed.

Lemma percent_decode_encode s : percent_decode (encodeURIComponent s) = s.
Proof.
  induction s as [|c s IH]; [reflexivity|].
  cbn [encodeURIComponent].
  destruct (percent_encode_byte c) as (Hbyte & _ & Hpct).
  destruct (uri_unreserved c).
  - cbn [append percent_decode]. rewrite (Hpct eq_refl). now rewrite IH.
  - unfold percent_encode. cbn [append percent_decode].
    rewrite Ascii.eqb_refl, Hbyte, IH. reflexivity.
Qed.

Lemma encodeURIComponent_safe s :
  JS.all_chars uri_safe (encodeURIComponent s) = true.
Proof.
  induction s as [|c s IH]; [reflexivity|].
  cbn [encodeURIComponent]. rewrite JSFacts.all_chars_app, IH, andb_true_r.
  destruct (uri_unreserved c) eqn:E.
  - cbn [JS.all_chars]. unfold uri_safe. now rewrite E.
  - apply percent_encode_byte.
Qed.

Lemma encodeURIComponent_no_char c s :
  uri_safe c = false -> JS.has_char c (encodeURIComponent s) = false.
Proof.
  intros Hc. eapply JSFacts.all_chars_no_char;
    [apply encodeURIComponent_safe|exact Hc].
Qed.

(** [encodeURIComponent] loses nothing and leaves no separator: decoding
    gives the text back, two different texts are encoded differently, and
    the result holds none of "?", "&", "=", "#", a space, a tab or a
    newline. *)
Lemma encodeURIComponent_roundtrip s :
  percent_decode (encodeURIComponent s) = s
  /\ (forall s', encodeURIComponent s = encodeURIComponent s' -> s = s')
  /\ JS.all_chars uri_safe (encodeURIComponent s) = true
  /\ Forall (fun c => JS.has_char c (encodeURIComponent s) = false)
       ["?"; "&"; "="; "#"; " "; "009"; "010"]%char.
Proof.
  split; [apply percent_decode_encode|]. split.
  - intros s' E. rewrite <- (percent_decode_encode s), E.
    apply percent_decode_encode.
  - split; [apply encodeURIComponent_safe|].
    repeat constructor; now apply encodeURIComponent_no_char.
Qed.

(** The link of the e-mail button splits back into its parts: cut at "?"
    it gives the address part and the query, the query cut at "&" gives
    exactly the subject field and the body field, and decoding them gives
    the subject and the body of the message.  The button navigates only to
    such a link, made from a composed message. *)
Theorem mail_link_carries_the_message config configuredEmailTo page href :
  In (Navigate href) (emailResultsClick config configuredEmailTo page) ->
  exists msg query subjectField bodyField,
    pagePatientMessage config page = Return msg
    /\ JS.split "?" href
       = ["mailto:" ++ encodeURIComponent (emailToOf configuredEmailTo); query]
    /\ JS.split "&" query
       = ["subject=" ++ subjectField; "body=" ++ bodyField]
    /\ percent_decode subjectField = subject msg
    /\ percent_decode bodyField = body msg
    /\ emailToOf configuredEmailTo <> EmptyString.
Proof.
  unfold emailResultsClick.
  destruct (pagePatientMessage config page) as [msg|message];
    cbn [In]; intros [H|[]]; [|discriminate H].
  injection H as <-.
  exists msg,
    ("subject=" ++ encodeURIComponent (subject msg)
       ++ "&body=" ++ encodeURIComponent (body msg)),
    (encodeURIComponent (subject msg)), (encodeURIComponent (body msg)).
  split; [reflexivity|]. split; [|split; [|split; [|split]]].
  - unfold mailtoLink.
    change ("mailto:" ++ encodeURIComponent (emailToOf configuredEmailTo)
              ++ "?subject=" ++ encodeURIComponent (subject msg)
              ++ "&body=" ++ encodeURIComponent (body msg))
      with ("mailto:" ++ encodeURIComponent (emailToOf configuredEmailTo)
              ++ String "?" ("subject=" ++ encodeURIComponent (subject msg)
                               ++ "&body=" ++ encodeURIComponent (body msg))).
    rewrite <- JSFacts.append_assoc, JSFacts.split_app_sep.
    rewrite !JSFacts.split_no_sep; [reflexivity| |].
    + rewrite !JSFacts.has_char_app,
        !(encodeURIComponent_no_char "?") by reflexivity. reflexivity.
    + rewrite JSFacts.has_char_app,
        (encodeURIComponent_no_char "?") by reflexivity. reflexivity.
  - change ("subject=" ++ encodeURIComponent (subject msg)
              ++ "&body=" ++ encodeURIComponent (body msg))
      with ("subject=" ++ encodeURIComponent (subject msg)
              ++ String "&" ("body=" ++ encodeURIComponent (body msg))).
    rewrite <- JSFacts.append_assoc, JSFacts.split_app_sep.
    rewrite !JSFacts.split_no_sep; [reflexivity| |];
      rewrite JSFacts.has_char_app,
        (encodeURIComponent_no_char "&") by reflexivity; reflexivity.
  - apply percent_decode_encode.
  - apply percent_decode_encode.
  - unfold emailToOf. destruct configuredEmailTo as [[|c rest]|]; discriminate.
Qed.

Lemma mail_link_carries_the_message_witness :
  In (Navigate
        (mailtoLink "nasalprom@yourorganisation.example"
           (mkMessage "NASALPROM PROMs"
              (buildEprText "" "" "" (Some [1; 1; 1; 1; 1]) None
                 ++ JS.str JS.NL))))
    (emailResultsClick (mkConfig (Some false)) None bareNosePage)
  /\ exists msg query,
       pagePatientMessage (mkConfig (Some false)) bareNosePage = Return msg
       /\ JS.split "?"
            (mailtoLink "nasalprom@yourorganisation.example"
               (mkMessage "NASALPROM PROMs"
                  (buildEprText "" "" "" (Some [1; 1; 1; 1; 1]) None
                     ++ JS.str JS.NL)))
          = ["mailto:nasalprom%40yourorganisation.example"; query].
Proof.
  assert (H : In (Navigate
                    (mailtoLink "nasalprom@yourorganisation.example"
                       (mkMessage "NASALPROM PROMs"
                          (buildEprText "" "" "" (Some [1; 1; 1; 1; 1]) None
                             ++ JS.str JS.NL))))
                (emailResultsClick (mkConfig (Some false)) None bareNosePage))
    by (left; reflexivity).
  split; [exact H|].
  destruct (mail_link_carries_the_message _ _ _ _ H)
    as (msg & query & _ & _ & Hm & Hs & _).
  exists msg, query. split; [exact Hm|exact Hs].
Defined.

End MailLink.

(** * The simpler script beside the smart one *)

Section SimpleScript.

Implicit Types (rs : list Radio).

Lemma Simple_getScores_numbers rs prefix count :
  Simple.getScores rs prefix count
  = scoresToNumbers (getScores rs prefix count).
Proof.
  unfold Simple.getScores, getScores, scoresToNumbers. rewrite map_map.
  apply map_ext. intros i. now destruct (querySelectorChecked rs _).
Qed.

Lemma scoresToNumbers_blank (scores : Scores) :
  completionState scores = empty ->
  scoresToNumbers scores = repeat 0 (List.length scores).
Proof.
  intros H. apply completionState_empty_iff in H.
  induction H as [|v l Hv _ IH]; [reflexivity|].
  cbn [scoresToNumbers map List.length repeat]. fold (scoresToNumbers l).
  rewrite IH. destruct v; [discriminate|reflexivity].
Qed.

(** The simpler script reads an unanswered item as 0 and always builds the
    full row.  Its row is the smart row exactly when both questionnaires
    are complete; in every other case the smart script returns a shorter
    row or fails, where the simpler one writes 0 for each missing answer:
    on a page with nothing checked its row is 29 fields "0". *)
Theorem simple_script_writes_zeros rs :
  let noseScores := getScores rs "nose_" 5 in
  let snotScores := getScores rs "snot_" 22 in
  let simpleRow :=
    Simple.buildBlockTSV (Simple.getScores rs "nose_" 5)
      (Simple.getScores rs "snot_" 22) in
  simpleRow
  = buildFullBlockTSV (scoresToNumbers noseScores) (scoresToNumbers snotScores)
  /\ List.length (JS.split JS.TAB simpleRow) = 29%nat
  /\ (forall r, buildSmartTSV noseScores snotScores = Return r ->
                (tsv r = simpleRow <-> mode r = full))
  /\ (completionState noseScores = empty ->
      completionState snotScores = empty ->
      JS.split JS.TAB simpleRow = repeat "0" 29
      /\ exists message, buildSmartTSV noseScores snotScores = Throw message).
Proof.
  intros noseScores snotScores simpleRow.
  assert (E : simpleRow
              = buildFullBlockTSV (scoresToNumbers noseScores)
                  (scoresToNumbers snotScores)).
  { subst simpleRow. now rewrite !Simple_getScores_numbers. }
  assert (Ln : List.length (scoresToNumbers noseScores) = 5%nat)
    by (rewrite scoresToNumbers_length; apply getScores_length).
  assert (Ls : List.length (scoresToNumbers snotScores) = 22%nat)
    by (rewrite scoresToNumbers_length; apply getScores_length).
  assert (L29 : List.length (JS.split JS.TAB simpleRow) = 29%nat).
  { rewrite E, buildFullBlockTSV_fields, !length_app, !length_map, Ln, Ls.
    reflexivity. }
  split; [exact E|]. split; [exact L29|]. split.
  - intros r Hr. pose proof (buildSmartTSV_row _ _ _ Hr) as Hrow.
    split.
    + intros Ht. rewrite <- Ht in L29.
      destruct (mode r); [reflexivity| |];
        destruct Hrow as (_ & _ & Hrow & _); rewrite Hrow in L29;
        [rewrite buildNoseOnlyTSV_fields in L29
        |rewrite buildSnotOnlyTSV_fields in L29];
        rewrite length_app, length_map in L29; cbn [List.length] in L29; lia.
    + intros Hm. rewrite Hm in Hrow.
      destruct Hrow as (_ & _ & -> & _). now rewrite E.
  - intros Hn Hs. split.
    + assert (Zn : scoresToNumbers noseScores = repeat 0 5).
      { rewrite (scoresToNumbers_blank _ Hn). subst noseScores.
        now rewrite getScores_length. }
      assert (Zs : scoresToNumbers snotScores = repeat 0 22).
      { rewrite (scoresToNumbers_blank _ Hs). subst snotScores.
        now rewrite getScores_length. }
      rewrite E, Zn, Zs. reflexivity.
    + apply buildSmartTSV_blocked. right; right. now split.
Qed.

Lemma simple_script_writes_zeros_witness :
  completionState (getScores (resetAllRadios mountedRadios) "nose_" 5) = empty
  /\ completionState (getScores (resetAllRadios mountedRadios) "snot_" 22)
     = empty
  /\ JS.split JS.TAB
       (Simple.buildBlockTSV
          (Simple.getScores (resetAllRadios mountedRadios) "nose_" 5)
          (Simple.getScores (resetAllRadios mountedRadios) "snot_" 22))
     = repeat "0" 29.
Proof.
  split; [reflexivity|]. split; [reflexivity|].
  exact (proj1 (proj2 (proj2 (proj2
           (simple_script_writes_zeros (resetAllRadios mountedRadios))))
           eq_refl eq_refl)).
Defined.

End SimpleScript.

(** * The layout of the narrative *)

Section NarrativeLayout.

Implicit Types (dateIso timepoint blockLabel : string).






End NarrativeLayout.
